(** * PDF to Custom Voice: the web API (app.py) and the dashboard (app1.py)

    A shallow embedding of the request handlers of [app.py] and of the
    "Save Voice Sample" handler of [app1.py], over

    - a Python [dict] with insertion order ([reference_audios],
      [st.session_state.voice_samples]),
    - a file system of regular files and directories,
    - the pretrained-model, audio and PDF libraries taken as an interface
      ([Library]), every call of which may raise,
    - a state-and-exception monad for the handlers' control flow
      ([try]/[except], [with] blocks). *)

From Stdlib Require Import ZArith NArith Strings.Byte.
From stdpp Require Import base option list strings pretty gmap.

Local Open Scope string_scope.

(** ** Python values *)

(** A Python [bytes] object. *)
Definition bytes := list Byte.byte.

Global Instance byte_eq_dec : EqDecision Byte.byte := Strings.Byte.byte_eq_dec.

(** A Python [str] holding document text: a sequence of code points. *)
Definition text := list N.

(** [str.isspace] on one code point (CPython's [Py_UNICODE_ISSPACE]). *)
Definition isspace (c : N) : bool :=
  ((9 <=? c) && (c <=? 13) || (28 <=? c) && (c <=? 32)
   || (c =? 133) || (c =? 160) || (c =? 5760)
   || (8192 <=? c) && (c <=? 8202)
   || (c =? 8232) || (c =? 8233) || (c =? 8239) || (c =? 8287)
   || (c =? 12288))%N.

Fixpoint lstrip (s : text) : text :=
  match s with
  | [] => []
  | c :: s' => if isspace c then lstrip s' else s
  end.

Definition rstrip (s : text) : text := reverse (lstrip (reverse s)).

(** [s.strip()] *)
Definition strip (s : text) : text := rstrip (lstrip s).

(** Truth value of a Python [str]: non-empty. *)
Definition text_truthy (s : text) : bool :=
  match s with [] => false | _ => true end.

Definition str_truthy (s : string) : bool :=
  match s with EmptyString => false | _ => true end.

(** Exceptions.  [HTTPException] is FastAPI's; every other exception is a
    [PyError] with its class name and message.  Both are instances of
    [Exception], so [except Exception] catches both. *)
Inductive exn :=
| PyError (cls : string) (msg : string)
| HTTPException (status_code : Z) (detail : string).

(** The result of a call that may raise. *)
Definition result (A : Type) : Type := exn + A.

(** ** Python dictionaries

    Keys are unique and kept in insertion order: assigning to an existing
    key keeps its position, a new key goes last. *)
Definition dict (V : Type) : Type := list (string * V).

Fixpoint dict_get {V} (k : string) (d : dict V) : option V :=
  match d with
  | [] => None
  | (k', v) :: d' => if decide (k' = k) then Some v else dict_get k d'
  end.

(** [k in d] *)
Definition dict_contains {V} (k : string) (d : dict V) : bool :=
  bool_decide (is_Some (dict_get k d)).

(** [d[k] = v] *)
Fixpoint dict_set {V} (k : string) (v : V) (d : dict V) : dict V :=
  match d with
  | [] => [(k, v)]
  | (k', v') :: d' =>
      if decide (k' = k) then (k, v) :: d' else (k', v') :: dict_set k v d'
  end.

(** [del d[k]] *)
Fixpoint dict_del {V} (k : string) (d : dict V) : dict V :=
  match d with
  | [] => []
  | (k', v') :: d' =>
      if decide (k' = k) then dict_del k d' else (k', v') :: dict_del k d'
  end.

(** [list(d.keys())] *)
Definition dict_keys {V} (d : dict V) : list string := d.*1.

(** ** The file system *)

Inductive node :=
| File (data : bytes)
| Dir.

(** [os.path.join(d, name)] for a directory name without a trailing
    separator and a relative [name]. *)
Definition path_join (d name : string) : string := d +:+ "/" +:+ name.

(** Is [p] inside directory [d]? *)
Definition inside (d p : string) : bool := String.prefix (d +:+ "/") p.

(** [tempfile.gettempdir()] *)
Definition gettempdir : string := "/tmp".

(** ** The libraries behind the handlers

    [uuid], [tempfile], [pydub], [PyPDF2] and OpenVoice are not part of the
    repository; they are taken as an interface.  A call that can raise
    returns a [result].  The two random sources are indexed by the number of
    random draws made so far. *)
Class Library := {
  AudioSegment : Type;
  SE : Type;                                   (* speaker embedding *)
  Page : Type;
  uuid4 : nat → string;                        (* str(uuid.uuid4()) *)
  tmp_name : nat → string;                     (* tempfile's random names *)
  from_file : bytes → result AudioSegment;     (* AudioSegment.from_file *)
  set_channels : Z → AudioSegment → AudioSegment;
  set_frame_rate : Z → AudioSegment → AudioSegment;
  export_wav : AudioSegment → result bytes;    (* AudioSegment.export *)
  se_get_se : bytes → result SE;               (* se_extractor.get_se *)
  tts_synth : text → string → result bytes;    (* BaseSpeakerTTS.tts *)
  tone_convert : bytes → SE → SE → result bytes; (* ToneColorConverter.convert *)
  PdfReader : bytes → result (list Page);      (* PyPDF2.PdfReader *)
  extract_text : Page → result text;           (* page.extract_text() *)
  str_http : Z → string → string               (* str() of an HTTPException *)
}.

(** Calls into the speech models, in the order they are made. *)
Inductive call :=
| CallTTS (output_path language : string)
| CallGetSE (audio_path : string)
| CallConvert (audio_src_path output_path : string).

Definition is_convert (c : call) : bool :=
  match c with CallConvert _ _ => true | _ => false end.

(** What a handler can reach besides its registry: the files, the random
    draws made so far, and the log of model calls. *)
Record world := World {
  fs : gmap string node;
  entropy : nat;
  calls : list call
}.

(** ** State and exceptions *)

Definition M (S A : Type) : Type := S → result A * S.

Global Instance M_ret {S} : MRet (M S) := λ A (a : A) s, (inr a, s).

Global Instance M_bind {S} : MBind (M S) := λ A B (f : A → M S B) (m : M S A) s,
  match m s with
  | (inr a, s') => f a s'
  | (inl e, s') => (inl e, s')
  end.

(** [raise e] *)
Definition raise {S A} (e : exn) : M S A := λ s, (inl e, s).

(** [try: body except Exception as e: handler(e)] *)
Definition try_except {S A} (body : M S A) (handler : exn → M S A) : M S A :=
  λ s, match body s with
       | (inr a, s') => (inr a, s')
       | (inl e, s') => handler e s'
       end.

(** A library call that may raise. *)
Definition lift_result {S A} (r : result A) : M S A := λ s, (r, s).

Definition get_state {S} : M S S := λ s, (inr s, s).

Definition modify {S} (f : S → S) : M S () := λ s, (inr (), f s).

Section Primitives.
Context {L : Library}.

(** [str(e)] *)
Definition str_exn (e : exn) : string :=
  match e with
  | PyError _ msg => msg
  | HTTPException c d => str_http c d
  end.

Definition set_fs (f : gmap string node → gmap string node) (w : world) : world :=
  World (f (fs w)) (entropy w) (calls w).

Definition draw (w : world) : world := World (fs w) (S (entropy w)) (calls w).

Definition log (c : call) (w : world) : world :=
  World (fs w) (entropy w) (calls w ++ [c])%list.

(** [str(uuid.uuid4())] *)
Definition random_uuid : M world string :=
  λ w, (inr (uuid4 (entropy w)), draw w).

(** Open [p] for writing: the file is created or truncated. *)
Definition open_wb (p : string) : M world () :=
  λ w, match fs w !! p with
       | Some Dir => (inl (PyError "IsADirectoryError" p), w)
       | _ => (inr (), set_fs <[p := File []]> w)
       end.

(** Write [data] to the open file [p]. *)
Definition fwrite (p : string) (data : bytes) : M world () :=
  modify (set_fs <[p := File data]>).

(** Read the whole file [p]. *)
Definition read_file (p : string) : M world bytes :=
  λ w, match fs w !! p with
       | Some (File b) => (inr b, w)
       | Some Dir => (inl (PyError "IsADirectoryError" p), w)
       | None => (inl (PyError "FileNotFoundError" p), w)
       end.

(** [tempfile.NamedTemporaryFile(delete=False, suffix=suffix)]: a new
    empty file under a name that did not exist.  The library retries
    other names when one is taken and gives up with [FileExistsError];
    here one name is drawn. *)
Definition NamedTemporaryFile (suffix : string) : M world string :=
  λ w, let p := gettempdir +:+ "/tmp" +:+ tmp_name (entropy w) +:+ suffix in
       match fs (draw w) !! p with
       | Some _ => (inl (PyError "FileExistsError" p), draw w)
       | None => (inr p, set_fs <[p := File []]> (draw w))
       end.

(** [tempfile.mkdtemp()], as called by [TemporaryDirectory()]. *)
Definition mkdtemp : M world string :=
  λ w, let d := gettempdir +:+ "/tmp" +:+ tmp_name (entropy w) in
       match fs (draw w) !! d with
       | Some _ => (inl (PyError "FileExistsError" d), draw w)
       | None => (inr d, set_fs <[d := Dir]> (draw w))
       end.

(** [shutil.rmtree(d)], the clean-up of a [TemporaryDirectory]. *)
Definition rmtree (d : string) (w : world) : world :=
  set_fs (filter (λ kv, kv.1 ≠ d ∧ inside d kv.1 = false)) w.

(** [os.path.exists(p)] *)
Definition os_path_exists (p : string) : M world bool :=
  λ w, (inr (bool_decide (is_Some (fs w !! p))), w).

(** [os.unlink(p)] and [os.remove(p)] (the same function). *)
Definition os_unlink (p : string) : M world () :=
  λ w, match fs w !! p with
       | Some (File _) => (inr (), set_fs (delete p) w)
       | Some Dir => (inl (PyError "IsADirectoryError" p), w)
       | None => (inl (PyError "FileNotFoundError" p), w)
       end.

Definition os_remove := os_unlink.

(** [AudioSegment.from_file(p)] *)
Definition AudioSegment_from_file (p : string) : M world AudioSegment :=
  b ← read_file p; lift_result (from_file b).

(** [audio.export(p, format="wav")]: the output file is opened first. *)
Definition AudioSegment_export (audio : AudioSegment) (p : string) : M world () :=
  open_wb p;; b ← lift_result (export_wav audio); fwrite p b.

(** [se_extractor.get_se(p, tone_color_converter)] *)
Definition get_se (p : string) : M world SE :=
  modify (log (CallGetSE p));; b ← read_file p; lift_result (se_get_se b).

(** [base_speaker_tts.tts(text, p, language=language)] *)
Definition tts (t : text) (p language : string) : M world () :=
  modify (log (CallTTS p language));;
  b ← lift_result (tts_synth t language);
  open_wb p;; fwrite p b.

(** [tone_color_converter.convert(audio_src_path, src_se, tts_se, output_path)] *)
Definition convert (audio_src_path : string) (src_se tgt_se : SE)
    (output_path : string) : M world () :=
  modify (log (CallConvert audio_src_path output_path));;
  b ← read_file audio_src_path;
  r ← lift_result (tone_convert b src_se tgt_se);
  open_wb output_path;; fwrite output_path r.

(** The loop [text = ""; for page in pages: text += page.extract_text() + "\n"]. *)
Fixpoint extract_pages (pages : list Page) (acc : text) : result text :=
  match pages with
  | [] => inr acc
  | page :: rest =>
      match extract_text page with
      | inr t => extract_pages rest (acc ++ t ++ [10%N])%list
      | inl e => inl e
      end
  end.

(** A stored voice sample: the dictionary
    [{"embedding": ..., "audio_path": ...}]. *)
Record voice_record := VoiceRecord {
  embedding : SE;
  audio_path : string
}.
End Primitives.

(** ** app.py: the web API *)
Module Api.
Section Handlers.
Context {L : Library}.

(** The process state: the global [reference_audios] and the world. *)
Record state := State {
  reference_audios : dict voice_record;
  env : world
}.

(** Run a step that only touches the world. *)
Definition in_world {A} (m : M world A) : M state A :=
  λ s, let '(r, w) := m (env s) in (r, State (reference_audios s) w).

(** [reference_audios[k]] *)
Definition getitem (k : string) : M state voice_record :=
  λ s, match dict_get k (reference_audios s) with
       | Some r => (inr r, s)
       | None => (inl (PyError "KeyError" k), s)
       end.

(** [reference_audios[k] = r] *)
Definition setitem (k : string) (r : voice_record) : M state () :=
  modify (λ s, State (dict_set k r (reference_audios s)) (env s)).

(** [del reference_audios[k]] *)
Definition delitem (k : string) : M state () :=
  modify (λ s, State (dict_del k (reference_audios s)) (env s)).

Inductive json :=
| JString (s : string)
| JStrings (l : list string).

(** What a handler hands back to the framework.  A [FileResponse] holds
    the path of the file to send, not its contents. *)
Inductive response :=
| JSONResponse (content : list (string * json))
| FileResponse (path media_type filename : string)
| ErrorResponse (status_code : Z) (detail : string).

(** [GET /] *)
Definition root : M state response :=
  mret (JSONResponse [("message", JString "PDF to Custom Voice API")]).

(** The [try] block of [upload_voice_sample]. *)
Definition upload_voice_sample_try (file : bytes) : M state response :=
  voice_id ← in_world random_uuid;
  tmp_path ← in_world (tmp_path ← NamedTemporaryFile ".wav";
                       fwrite tmp_path file;;
                       mret tmp_path);
  audio ← in_world (AudioSegment_from_file tmp_path);
  let audio := set_frame_rate 24000 (set_channels 1 audio) in
  let processed_path := "processed_" +:+ voice_id +:+ ".wav" in
  in_world (AudioSegment_export audio processed_path);;
  speaker_embedding ← in_world (get_se processed_path);
  setitem voice_id (VoiceRecord speaker_embedding processed_path);;
  in_world (os_unlink tmp_path);;
  mret (JSONResponse [("voice_id", JString voice_id);
                      ("message", JString "Voice sample uploaded successfully")]).

(** [POST /upload_voice_sample/] *)
Definition upload_voice_sample (file : bytes) : M state response :=
  try_except (upload_voice_sample_try file)
    (λ e, raise (HTTPException 500
                   ("Error processing voice sample: " +:+ str_exn e))).

(** [with tempfile.TemporaryDirectory() as tmp_dir: body]: the directory
    is removed when the block is left, by [return] or by an exception. *)
Definition with_TemporaryDirectory {A} (body : string → M state A) : M state A :=
  tmp_dir ← in_world mkdtemp;
  ((λ s, let '(r, s') := body tmp_dir s in
         (r, State (reference_audios s') (rmtree tmp_dir (env s'))))
   : M state A).

(** The voice selected by [voice_id and voice_id in reference_audios]. *)
Definition chosen_voice (voice_id : option string) (d : dict voice_record)
    : option string :=
  match voice_id with
  | Some v => if str_truthy v && dict_contains v d then Some v else None
  | None => None
  end.

(** The body of the [with] block of [convert_pdf]. *)
Definition synthesize (t : text) (voice_id : option string) (language tmp_dir : string)
    : M state response :=
  let base_audio_path := path_join tmp_dir "base_audio.wav" in
  in_world (tts t base_audio_path language);;
  s ← get_state;
  match chosen_voice voice_id (reference_audios s) with
  | Some v =>
      reference_info ← getitem v;
      let target_se := embedding reference_info in
      let output_path := path_join tmp_dir "cloned_audio.wav" in
      src_se ← in_world (get_se base_audio_path);
      in_world (convert base_audio_path src_se target_se output_path);;
      mret (FileResponse output_path "audio/wav" "converted_audio.wav")
  | None =>
      mret (FileResponse base_audio_path "audio/wav" "converted_audio.wav")
  end.

(** The [try] block of [convert_pdf]. *)
Definition convert_pdf_try (pdf_file : bytes) (voice_id : option string)
    (language : string) : M state response :=
  pages ← lift_result (PdfReader pdf_file);
  t ← lift_result (extract_pages pages []);
  if negb (text_truthy (strip t))
  then raise (HTTPException 400 "No text could be extracted from PDF")
  else with_TemporaryDirectory (synthesize t voice_id language).

(** [POST /convert_pdf/] *)
Definition convert_pdf (pdf_file : bytes) (voice_id : option string)
    (language : string) : M state response :=
  try_except (convert_pdf_try pdf_file voice_id language)
    (λ e, raise (HTTPException 500 ("Error converting PDF: " +:+ str_exn e))).

(** [GET /list_voices/] *)
Definition list_voices : M state response :=
  s ← get_state;
  mret (JSONResponse [("voices", JStrings (dict_keys (reference_audios s)))]).

(** [DELETE /delete_voice/{voice_id}] *)
Definition delete_voice (voice_id : string) : M state response :=
  s ← get_state;
  if dict_contains voice_id (reference_audios s) then
    reference_info ← getitem voice_id;
    present ← in_world (os_path_exists (audio_path reference_info));
    (if present : bool then in_world (os_remove (audio_path reference_info))
     else mret ());;
    delitem voice_id;;
    mret (JSONResponse
            [("message", JString ("Voice " +:+ voice_id +:+ " deleted successfully"))])
  else raise (HTTPException 404 "Voice ID not found").

(** The framework around a handler, up to the response object it is left
    with: an [HTTPException] becomes a response with its status code and
    detail, any other exception that leaves the handler becomes a bare
    500.  A [FileResponse] is still only a path here; what the client
    receives of it is decided by [send]. *)
Definition serve (h : M state response) (s : state) : response * state :=
  match h s with
  | (inr r, s') => (r, s')
  | (inl (HTTPException c d), s') => (ErrorResponse c d, s')
  | (inl (PyError _ _), s') => (ErrorResponse 500 "Internal Server Error", s')
  end.

Inductive request :=
| Root
| UploadVoiceSample (file : bytes)
| ConvertPdf (pdf_file : bytes) (voice_id : option string) (language : string)
| ListVoices
| DeleteVoice (voice_id : string).

Definition handler (r : request) : M state response :=
  match r with
  | Root => root
  | UploadVoiceSample file => upload_voice_sample file
  | ConvertPdf pdf_file voice_id language => convert_pdf pdf_file voice_id language
  | ListVoices => list_voices
  | DeleteVoice voice_id => delete_voice voice_id
  end.

(** One request, up to the handler's return: the response object and the
    state the handler leaves behind. *)
Definition step (r : request) (s : state) : response * state := serve (handler r) s.

(** Requests are served one at a time, in order. *)
Fixpoint run (rs : list request) (s : state) : state :=
  match rs with
  | [] => s
  | r :: rs' => run rs' (step r s).2
  end.

(** The process starts with [reference_audios = {}]. *)
Definition start (w : world) : state := State [] w.

(** The states the process can be in between two requests. *)
Inductive reachable : state → Prop :=
| reachable_start w : reachable (start w)
| reachable_step r s : reachable s → reachable (step r s).2.

(** The voices a [list_voices] response names. *)
Definition listed (r : response) : list string :=
  match r with
  | JSONResponse [(_, JStrings l)] => l
  | _ => []
  end.

(** The handler ended in an error response. *)
Definition is_error (r : response) : bool :=
  match r with ErrorResponse _ _ => true | _ => false end.

(** What the client receives: a JSON body, the bytes of a file, or an
    error status with its detail. *)
Inductive reply :=
| Json (content : list (string * json))
| FileBody (data : bytes) (media_type filename : string)
| Failure (status_code : Z) (detail : string).

(** The framework sends the response after the handler has returned.  A
    [FileResponse] is opened only now, in the world the handler has left:
    when its path is not a regular file the sending raises, outside every
    [try] of the handlers, and the client gets a bare 500. *)
Definition send (r : response) (w : world) : reply :=
  match r with
  | JSONResponse content => Json content
  | ErrorResponse c d => Failure c d
  | FileResponse p media_type filename =>
      match fs w !! p with
      | Some (File b) => FileBody b media_type filename
      | _ => Failure 500 "Internal Server Error"
      end
  end.

(** One request as the client sees it. *)
Definition answer (r : request) (s : state) : reply :=
  send (step r s).1 (env (step r s).2).

Definition failed (a : reply) : bool :=
  match a with Failure _ _ => true | _ => false end.

Global Instance request_eq_dec : EqDecision request.
Proof. solve_decision. Defined.

End Handlers.
End Api.

(** ** app1.py: the dashboard *)
Module Dashboard.
Section Handlers.
Context {L : Library}.

(** What the page shows: [st.success] and [st.error]. *)
Inductive message :=
| Success (s : string)
| Error (s : string).

(** The session: [st.session_state.voice_samples], the world, and the
    messages shown so far. *)
Record session := Session {
  voice_samples : dict voice_record;
  env : world;
  shown : list message
}.

Definition in_world {A} (m : M world A) : M session A :=
  λ s, let '(r, w) := m (env s) in (r, Session (voice_samples s) w (shown s)).

(** [st.session_state.voice_samples[k] = r] *)
Definition setitem (k : string) (r : voice_record) : M session () :=
  modify (λ s, Session (dict_set k r (voice_samples s)) (env s) (shown s)).

Definition show (m : message) : M session () :=
  modify (λ s, Session (voice_samples s) (env s) (shown s ++ [m])%list).

(** The body of [if voice_file and voice_name and st.button("Save Voice Sample")]. *)
Definition save_voice_sample (content : bytes) (voice_name : string) : M session () :=
  try_except
    (voice_id ← in_world random_uuid;
     tmp_path ← in_world (tmp_path ← NamedTemporaryFile ".wav";
                          fwrite tmp_path content;;
                          mret tmp_path);
     audio ← in_world (AudioSegment_from_file tmp_path);
     let audio := set_frame_rate 24000 (set_channels 1 audio) in
     let processed_path := "processed_" +:+ voice_id +:+ ".wav" in
     in_world (AudioSegment_export audio processed_path);;
     speaker_embedding ← in_world (get_se processed_path);
     setitem voice_name (VoiceRecord speaker_embedding processed_path);;
     in_world (os_unlink tmp_path);;
     show (Success ("Voice sample '" +:+ voice_name +:+ "' saved successfully!")))
    (λ e, show (Error ("Error processing voice sample: " +:+ str_exn e))).

(** One run of the "Manage Voice Samples" form: [voice_file] is the
    uploaded file if any, [clicked] the state of the button. *)
Definition manage_voice_samples (voice_file : option bytes) (voice_name : string)
    (clicked : bool) (s : session) : result () * session :=
  match voice_file with
  | Some content =>
      if str_truthy voice_name && clicked
      then save_voice_sample content voice_name s
      else (inr (), s)
  | None => (inr (), s)
  end.
End Handlers.
End Dashboard.

(** ** A small instance of the libraries

    Audio is its bytes, an embedding is the sample it was taken from, a PDF
    has one page per byte.  Decoding empty audio and reading an empty PDF
    fail. *)
Definition demo_from_file (b : bytes) : result bytes :=
  match b with
  | [] => inl (PyError "CouldntDecodeError" "Decoding failed")
  | _ => inr b
  end.

Definition demo_PdfReader (b : bytes) : result (list text) :=
  match b with
  | [] => inl (PyError "PdfReadError" "Cannot read an empty file")
  | _ => inr ((λ c, [Byte.to_N c]) <$> b)
  end.

Definition demo_tts (t : text) (language : string) : result bytes :=
  inr (replicate (length t) Byte.x61).

Definition demo : Library := {|
  AudioSegment := bytes;
  SE := bytes;
  Page := text;
  uuid4 := λ n, "voice-" +:+ pretty n;
  tmp_name := λ n, pretty n;
  from_file := demo_from_file;
  set_channels := λ _ a, a;
  set_frame_rate := λ _ a, a;
  export_wav := λ a, inr a;
  se_get_se := λ b, inr b;
  tts_synth := demo_tts;
  tone_convert := λ b _ tgt, inr (b ++ tgt)%list;
  PdfReader := demo_PdfReader;
  extract_text := λ p, inr p;
  str_http := λ c d, pretty c +:+ ": " +:+ d
|}.

Definition empty_world : world := World ∅ 0 [].

(** ** Vocabulary of the properties *)

(** Every run of [m] relates the state before to the state after, whether
    [m] returns or raises. *)
Definition preserves {S A} (R : relation S) (m : M S A) : Prop :=
  ∀ s, R s (m s).2.

Definition is_file (n : option node) : Prop :=
  match n with Some (File _) => True | _ => False end.

(** Relations between the world before and after a step. *)
Definition entropy_grows : relation world :=
  λ w w', (entropy w ≤ entropy w')%nat.

Definition no_new_dirs : relation world :=
  λ w w', ∀ p, fs w' !! p = Some Dir → fs w !! p = Some Dir.

Definition keeps_files : relation world :=
  λ w w', ∀ p, is_file (fs w !! p) → is_file (fs w' !! p).

Definition no_conversion : relation world :=
  λ w w', ∃ l, calls w' = (calls w ++ l)%list ∧ Forall (λ c, is_convert c = false) l.

(** Relations between the API state before and after a step. *)
Definition on_env {L : Library} (R : relation world) : relation Api.state :=
  λ s s', R (Api.env s) (Api.env s').

Definition same_registry {L : Library} : relation Api.state :=
  λ s s', Api.reference_audios s' = Api.reference_audios s.

(** What holds of the registry between two requests: every key was drawn
    by [uuid4] earlier in the run, and no record points at a directory. *)
Definition registry_ok {L : Library} (s : Api.state) : Prop :=
  ∀ k r, dict_get k (Api.reference_audios s) = Some r →
    (∃ n, n < entropy (Api.env s) ∧ k = uuid4 n)
    ∧ fs (Api.env s) !! audio_path r ≠ Some Dir.

(** The identifier [v] is not registered and will not be drawn again. *)
Definition retired {L : Library} (v : string) (s : Api.state) : Prop :=
  (v ∉ dict_keys (Api.reference_audios s))
  ∧ (∀ n, (entropy (Api.env s) ≤ n)%nat → uuid4 n ≠ v).

(** Every file written or removed lies inside directory [d]. *)
Definition writes_only_inside (d : string) : relation world :=
  λ w w', ∀ p, inside d p = false → fs w' !! p = fs w !! p.

(** Every record of the registry names the processed file of its own
    identifier, and that file exists. *)
Definition registry_backed {L : Library} (s : Api.state) : Prop :=
  ∀ k r, dict_get k (Api.reference_audios s) = Some r →
    audio_path r = "processed_" +:+ k +:+ ".wav"
    ∧ is_file (fs (Api.env s) !! audio_path r).

(** ** app1.py: the rest of the script

    What the dashboard needs besides the handlers' libraries: the
    downloader, the import of OpenVoice and the loading of the two models.
    [gdown.download] may raise, return [None] without writing, or write
    the file; its outcome may differ from one attempt to the next, so it
    is indexed by the number of downloads made so far. *)
Class Setup := {
  gdown_download : nat → string → result (option bytes);
  import_openvoice : result ();
  cuda_is_available : bool;
  BaseSpeakerTTS_init : bytes → result ();
  BaseSpeakerTTS_load_ckpt : bytes → result ();
  ToneColorConverter_init : bytes → result ();
  ToneColorConverter_load_ckpt : bytes → result ()
}.

Module Script.
Section Run.
Context {L : Library} {T : Setup}.

(** What a run puts on the page besides [st.success] and [st.error]
    (static titles, headers and help texts are left out).  A progress bar
    at [(i + 1) / len(model_urls)] is kept as the fraction. *)
Inductive element :=
| Warning (body : string)
| Info (body : string)
| StatusText (body : string)
| Progress (num den : nat)
| Audio (data : bytes)
| DownloadButton (label : string) (data : bytes) (file_name : string).

(** [st.session_state] with its three keys, the world, what has been
    shown, and the downloads asked of [gdown] (url, output). *)
Record page := Page {
  session : Dashboard.session;
  models_downloaded : bool;
  openvoice_initialized : bool;
  elements : list element;
  downloads : list (string * string)
}.

Definition in_session {A} (m : M Dashboard.session A) : M page A :=
  λ p, let '(r, s) := m (session p) in
       (r, Page s (models_downloaded p) (openvoice_initialized p)
             (elements p) (downloads p)).

Definition in_env {A} (m : M world A) : M page A :=
  in_session (Dashboard.in_world m).

(** [st.success(...)], [st.error(...)] *)
Definition show (m : Dashboard.message) : M page () :=
  in_session (Dashboard.show m).

Definition emit (e : element) : M page () :=
  modify (λ p, Page (session p) (models_downloaded p) (openvoice_initialized p)
                 (elements p ++ [e])%list (downloads p)).

(** [Path(d).mkdir(exist_ok=True)] *)
Definition mkdir_exist_ok (d : string) : M world () :=
  λ w, match fs w !! d with
       | None => (inr (), set_fs <[d := Dir]> w)
       | Some Dir => (inr (), w)
       | Some (File _) => (inl (PyError "FileExistsError" d), w)
       end.

(** [gdown.download(url, output, quiet=False)] *)
Definition gdown (url output : string) : M page () :=
  p ← get_state;
  modify (λ p, Page (session p) (models_downloaded p) (openvoice_initialized p)
                 (elements p) (downloads p ++ [(url, output)])%list);;
  r ← lift_result (gdown_download (length (downloads p)) url);
  match r with
  | Some data => in_env (open_wb output;; fwrite output data)
  | None => mret ()
  end.

Definition model_urls : list (string * string) :=
  [("checkpoint_v1.pth", "https://drive.google.com/uc?id=1Z3Xz3Iu2RUMC0F_0aJQ2e7MF-ff0z5gW");
   ("checkpoint_v2.pth", "https://drive.google.com/uc?id=1jX7Wp7ecjNxCmHJ4QM4I1JkA33IytcQH");
   ("config.json", "https://drive.google.com/uc?id=1C0g3f6Q1qQ5R6qQ2qQ3qQ4qQ5qQ6qQ7qQ")].

(** The loop of [download_models] from index [i] on; [false] is the early
    [return False]. *)
Fixpoint download_loop (model_dir : string) (i total : nat)
    (items : list (string * string)) : M page bool :=
  match items with
  | [] => mret true
  | (filename, url) :: rest =>
      present ← in_env (os_path_exists (path_join model_dir filename));
      ok ← (if present : bool then mret true
            else
              emit (StatusText ("Downloading " +:+ filename +:+ "..."));;
              try_except
                (gdown url (path_join model_dir filename);; mret true)
                (λ e, show (Dashboard.Error
                              ("Failed to download " +:+ filename +:+ ": "
                               +:+ str_exn e));;
                      mret false));
      if ok : bool
      then emit (Progress (i + 1) total);; download_loop model_dir (S i) total rest
      else mret false
  end.

(** [download_models()] *)
Definition download_models : M page bool :=
  let model_dir := "checkpoints" in
  in_env (mkdir_exist_ok model_dir);;
  emit (Progress 0 1);;
  finished ← download_loop model_dir 0 (length model_urls) model_urls;
  if finished : bool then
    emit (StatusText "Models downloaded successfully!");;
    modify (λ p, Page (session p) true (openvoice_initialized p)
                   (elements p) (downloads p));;
    mret true
  else mret false.

(** [initialize_openvoice()]: each model reads its configuration when it
    is built and its checkpoint in [load_ckpt]. *)
Definition initialize_openvoice : M page bool :=
  try_except
    (lift_result import_openvoice;;
     let device := if cuda_is_available then "cuda" else "cpu" in
     emit (Info ("Using device: " +:+ device));;
     config ← in_env (read_file "checkpoints/config.json");
     lift_result (BaseSpeakerTTS_init config);;
     ckpt ← in_env (read_file "checkpoints/checkpoint.pth");
     lift_result (BaseSpeakerTTS_load_ckpt ckpt);;
     config ← in_env (read_file "checkpoints/config.json");
     lift_result (ToneColorConverter_init config);;
     ckpt ← in_env (read_file "checkpoints/checkpoint.pth");
     lift_result (ToneColorConverter_load_ckpt ckpt);;
     modify (λ p, Page (session p) (models_downloaded p) true
                    (elements p) (downloads p));;
     mret true)
    (λ e, show (Dashboard.Error ("Failed to initialize OpenVoice: " +:+ str_exn e));;
          mret false).

(** [st.session_state.voice_samples[k]] *)
Definition getitem (k : string) : M page voice_record :=
  λ p, match dict_get k (Dashboard.voice_samples (session p)) with
       | Some r => (inr r, p)
       | None => (inl (PyError "KeyError" k), p)
       end.

(** [del st.session_state.voice_samples[k]] *)
Definition delitem (k : string) : M page () :=
  λ p, match dict_get k (Dashboard.voice_samples (session p)) with
       | Some _ =>
           (inr (),
            Page (Dashboard.Session
                    (dict_del k (Dashboard.voice_samples (session p)))
                    (Dashboard.env (session p)) (Dashboard.shown (session p)))
              (models_downloaded p) (openvoice_initialized p)
              (elements p) (downloads p))
       | None => (inl (PyError "KeyError" k), p)
       end.

Definition with_TemporaryDirectory {A} (body : string → M page A) : M page A :=
  tmp_dir ← in_env mkdtemp;
  ((λ p, let '(r, p') := body tmp_dir p in
         (r, Page (Dashboard.Session (Dashboard.voice_samples (session p'))
                     (rmtree tmp_dir (Dashboard.env (session p')))
                     (Dashboard.shown (session p')))
               (models_downloaded p') (openvoice_initialized p')
               (elements p') (downloads p')))
   : M page A).

(** [st.audio(path, format="audio/wav")]: the file is read when the
    element is made. *)
Definition st_audio (path : string) : M page () :=
  data ← in_env (read_file path); emit (Audio data).

(** [with open(path, "rb") as f: st.download_button(label, data=f, file_name=...)] *)
Definition st_download_button (label path file_name : string) : M page () :=
  data ← in_env (read_file path); emit (DownloadButton label data file_name).

(** The body of the [with] block of the "Convert to Speech" handler. *)
Definition synthesize (t : text) (selected_voice language tmp_dir : string)
    : M page () :=
  let base_audio_path := path_join tmp_dir "base_audio.wav" in
  in_env (tts t base_audio_path language);;
  '(result_audio, message) ←
    (if decide (selected_voice ≠ "Default Voice") then
       reference_info ← getitem selected_voice;
       let target_se := embedding reference_info in
       let output_path := path_join tmp_dir "cloned_audio.wav" in
       src_se ← in_env (get_se base_audio_path);
       in_env (convert base_audio_path src_se target_se output_path);;
       mret (output_path, "PDF converted to audio with voice cloning")
     else
       mret (base_audio_path, "PDF converted to audio with default voice"));
  in_env (AudioSegment_from_file result_audio);;
  st_audio result_audio;;
  st_download_button "Download Audio" result_audio "converted_audio.wav";;
  show (Dashboard.Success message).

(** The body of [if pdf_file and st.button("Convert to Speech")]. *)
Definition convert_to_speech (content : bytes) (selected_voice language : string)
    : M page () :=
  try_except
    (pages ← lift_result (PdfReader content);
     t ← lift_result (extract_pages pages []);
     if negb (text_truthy (strip t))
     then show (Dashboard.Error "No text could be extracted from the PDF.")
     else with_TemporaryDirectory (synthesize t selected_voice language))
    (λ e, show (Dashboard.Error ("Error converting PDF: " +:+ str_exn e))).

(** [st.rerun()] leaves the run by an exception of its own. *)
Definition st_rerun : M page () := raise (PyError "RerunException" "").

(** The body of [if st.button("Delete", key=f"delete_{name}")]. *)
Definition delete_sample (name : string) (info : voice_record) : M page () :=
  present ← in_env (os_path_exists (audio_path info));
  (if present : bool then in_env (os_remove (audio_path info)) else mret ());;
  delitem name;;
  st_rerun.

(** The widget values of one run. *)
Record inputs := Inputs {
  language : string;
  download_clicked : bool;
  pdf_file : option bytes;
  voice_index : nat;
  convert_clicked : bool;
  voice_file : option bytes;
  voice_name : string;
  save_clicked : bool;
  delete_clicked : option string
}.

(** The loop [for name, info in st.session_state.voice_samples.items()]. *)
Fixpoint show_samples (items : list (string * voice_record))
    (clicked : option string) : M page () :=
  match items with
  | [] => mret ()
  | (name, info) :: rest =>
      st_audio (audio_path info);;
      (if decide (clicked = Some name) then delete_sample name info else mret ());;
      show_samples rest clicked
  end.

Definition voice_options (d : dict voice_record) : list string :=
  "Default Voice" :: dict_keys d.

(** The "Convert PDF" tab. *)
Definition convert_tab (i : inputs) : M page () :=
  p ← get_state;
  let selected_voice :=
    default "Default Voice"
      (voice_options (Dashboard.voice_samples (session p)) !! voice_index i) in
  match pdf_file i with
  | Some content =>
      if convert_clicked i
      then convert_to_speech content selected_voice (language i)
      else mret ()
  | None => mret ()
  end.

(** The "Manage Voice Samples" tab. *)
Definition manage_tab (i : inputs) : M page () :=
  in_session (Dashboard.manage_voice_samples (voice_file i) (voice_name i)
                (save_clicked i));;
  p ← get_state;
  match Dashboard.voice_samples (session p) with
  | [] => emit (Info "No voice samples saved yet.")
  | items => show_samples items (delete_clicked i)
  end.

(** One run of the script, top to bottom. *)
Definition script (i : inputs) : M page () :=
  p ← get_state;
  (if negb (models_downloaded p) then
     emit (Warning "Required models not found. Please download them first.");;
     if download_clicked i then
       ok ← download_models;
       if ok : bool then show (Dashboard.Success "Models downloaded successfully!")
       else show (Dashboard.Error "Failed to download models.")
     else mret ()
   else mret ());;
  p ← get_state;
  (if models_downloaded p && negb (openvoice_initialized p) then
     ok ← initialize_openvoice;
     if ok : bool then show (Dashboard.Success "OpenVoice initialized successfully!")
     else show (Dashboard.Error "Failed to initialize OpenVoice.")
   else mret ());;
  p ← get_state;
  if openvoice_initialized p then convert_tab i;; manage_tab i
  else emit (Info "Please download the required models and initialize OpenVoice to use this app.").

(** A session starts with no sample and both flags off. *)
Definition fresh (w : world) : page :=
  Page (Dashboard.Session [] w []) false false [] [].

(** Runs follow one another on the same session; a run that ends by an
    exception (also [st.rerun()]) keeps what it had done. *)
Fixpoint runs (ins : list inputs) (p : page) : page :=
  match ins with
  | [] => p
  | i :: ins' => runs ins' (script i p).2
  end.
End Run.
End Script.

(** A small instance: every download and every load succeeds. *)
Definition demo_setup : Setup := {|
  gdown_download := λ _ _, inr (Some [Byte.x00]);
  import_openvoice := inr ();
  cuda_is_available := false;
  BaseSpeakerTTS_init := λ _, inr ();
  BaseSpeakerTTS_load_ckpt := λ _, inr ();
  ToneColorConverter_init := λ _, inr ();
  ToneColorConverter_load_ckpt := λ _, inr ()
|}.

(** Relations between the page before and after a step of the script. *)

(** The samples and the world are as they were. *)
Definition session_kept {L : Library} {T : Setup} : relation Script.page :=
  λ p p', Dashboard.voice_samples (Script.session p')
          = Dashboard.voice_samples (Script.session p)
          ∧ Dashboard.env (Script.session p') = Dashboard.env (Script.session p).

(** The two flags are as they were. *)
Definition flags_kept {L : Library} {T : Setup} : relation Script.page :=
  λ p p', Script.models_downloaded p' = Script.models_downloaded p
          ∧ Script.openvoice_initialized p' = Script.openvoice_initialized p.

(** No path outside [targets] is written or removed. *)
Definition writes_only (targets : list string) : relation world :=
  λ w w', ∀ q, q ∉ targets → fs w' !! q = fs w !! q.

(** A step of the set-up: the samples, the model calls, the random draws
    and [openvoice_initialized] are as they were, and no path outside
    [targets] is touched. *)
Definition setup_frame {L : Library} {T : Setup} (targets : list string)
    : relation Script.page :=
  λ p p', Dashboard.voice_samples (Script.session p')
          = Dashboard.voice_samples (Script.session p)
          ∧ Script.openvoice_initialized p' = Script.openvoice_initialized p
          ∧ calls (Dashboard.env (Script.session p'))
            = calls (Dashboard.env (Script.session p))
          ∧ entropy (Dashboard.env (Script.session p'))
            = entropy (Dashboard.env (Script.session p))
          ∧ writes_only targets (Dashboard.env (Script.session p))
              (Dashboard.env (Script.session p')).

(** The directory and the files [download_models] may write. *)
Definition model_files : list string :=
  "checkpoints" :: ((λ fu, path_join "checkpoints" fu.1) <$> Script.model_urls).

(** A step on the files alone: no model call, no random draw, no path
    outside [targets] touched. *)
Definition file_step (targets : list string) : relation world :=
  λ w w', calls w' = calls w ∧ entropy w' = entropy w ∧ writes_only targets w w'.


(** * Properties *)

(** ** Dictionaries *)

Section DictFacts.
Context {V : Type}.
Implicit Types (k : string) (v : V) (d : dict V).

Lemma dict_get_set_eq k v d : dict_get k (dict_set k v d) = Some v.
Proof.
  induction d as [|[k' v'] d IH]; simpl.
  - by rewrite decide_True.
  - destruct (decide (k' = k)) as [->|Hne]; simpl.
    + by rewrite decide_True.
    + by rewrite decide_False.
Qed.

Lemma dict_get_set_ne k k' v d :
  k ≠ k' → dict_get k' (dict_set k v d) = dict_get k' d.
Proof.
  intros Hne. induction d as [|[k0 v0] d IH]; simpl.
  - by rewrite decide_False.
  - destruct (decide (k0 = k)) as [->|Hk]; simpl.
    + by rewrite !decide_False.
    + by rewrite IH.
Qed.

Lemma dict_get_del_eq k d : dict_get k (dict_del k d) = None.
Proof.
  induction d as [|[k' v'] d IH]; simpl; [done|].
  destruct (decide (k' = k)) as [->|Hne]; simpl; [done|].
  by rewrite decide_False.
Qed.

Lemma dict_get_del_ne k k' d :
  k ≠ k' → dict_get k' (dict_del k d) = dict_get k' d.
Proof.
  intros Hne. induction d as [|[k0 v0] d IH]; simpl; [done|].
  destruct (decide (k0 = k)) as [->|Hk]; simpl.
  - by rewrite decide_False.
  - by rewrite IH.
Qed.

(** The keys are exactly the strings that have a value. *)
Lemma elem_of_dict_keys k d : k ∈ dict_keys d ↔ is_Some (dict_get k d).
Proof.
  unfold dict_keys. induction d as [|[k' v'] d IH]; simpl.
  - split; [by intros ?%elem_of_nil | by intros [? ?]].
  - rewrite elem_of_cons. destruct (decide (k' = k)) as [->|Hne].
    + split; eauto.
    + rewrite IH. split; [|by right]. by intros [?|?].
Qed.

Lemma dict_contains_keys k d : dict_contains k d = true ↔ k ∈ dict_keys d.
Proof.
  unfold dict_contains. by rewrite bool_decide_eq_true, elem_of_dict_keys.
Qed.

Lemma dict_keys_set k k' v d :
  k' ∈ dict_keys (dict_set k v d) ↔ k' = k ∨ k' ∈ dict_keys d.
Proof.
  rewrite !elem_of_dict_keys. destruct (decide (k = k')) as [->|Hne].
  - rewrite dict_get_set_eq. split; eauto.
  - rewrite dict_get_set_ne by done. split; [by right|].
    by intros [->|?].
Qed.

Lemma dict_keys_del k k' d :
  k' ∈ dict_keys (dict_del k d) ↔ k' ≠ k ∧ k' ∈ dict_keys d.
Proof.
  rewrite !elem_of_dict_keys. destruct (decide (k = k')) as [->|Hne].
  - rewrite dict_get_del_eq. split; [by intros [? ?] | by intros [? _]].
  - rewrite dict_get_del_ne by done. split; [|by intros [_ ?]].
    intros ?. split; [congruence | done].
Qed.
End DictFacts.

(** ** Frame rules for the monad *)

Section Frames.
Context {S : Type} (R : relation S) `{!PreOrder R}.

Lemma preserves_ret {A} (a : A) : preserves R (mret a : M S A).
Proof. intros s. simpl. reflexivity. Qed.

Lemma preserves_raise {A} (e : exn) : preserves R (raise e : M S A).
Proof. intros s. simpl. reflexivity. Qed.

Lemma preserves_lift {A} (r : result A) : preserves R (lift_result r : M S A).
Proof. intros s. simpl. reflexivity. Qed.

Lemma preserves_get : preserves R (get_state : M S S).
Proof. intros s. simpl. reflexivity. Qed.

Lemma preserves_modify (f : S → S) : (∀ s, R s (f s)) → preserves R (modify f).
Proof. intros Hf s. apply Hf. Qed.

Lemma preserves_bind {A B} (m : M S A) (f : A → M S B) :
  preserves R m → (∀ a, preserves R (f a)) → preserves R (m ≫= f).
Proof.
  intros Hm Hf s. unfold mbind, M_bind.
  specialize (Hm s). destruct (m s) as [[e|a] s1]; simpl in *; [done|].
  etrans; [exact Hm | apply Hf].
Qed.

Lemma preserves_try {A} (m : M S A) (h : exn → M S A) :
  preserves R m → (∀ e, preserves R (h e)) → preserves R (try_except m h).
Proof.
  intros Hm Hh s. unfold try_except.
  specialize (Hm s). destruct (m s) as [[e|a] s1]; simpl in *; [|done].
  etrans; [exact Hm | apply Hh].
Qed.

Lemma run_preserves {A} (m : M S A) s r s' :
  preserves R m → m s = (r, s') → R s s'.
Proof. intros H E. specialize (H s). by rewrite E in H. Qed.

Lemma preserves_if {A} (b : bool) (m1 m2 : M S A) :
  preserves R m1 → preserves R m2 → preserves R (if b then m1 else m2).
Proof. by destruct b. Qed.
End Frames.

Create HintDb frames discriminated.

#[export] Hint Resolve preserves_ret preserves_raise preserves_lift preserves_get
  preserves_bind preserves_try preserves_if : frames.

Global Instance entropy_grows_preorder : PreOrder entropy_grows.
Proof. split; unfold entropy_grows; [intros ?; lia | intros ???; lia]. Qed.

Global Instance no_new_dirs_preorder : PreOrder no_new_dirs.
Proof. split; unfold no_new_dirs; [by intros ? | intros ??? H1 H2 p ?; eauto]. Qed.

Global Instance keeps_files_preorder : PreOrder keeps_files.
Proof. split; unfold keeps_files; [by intros ? | intros ??? H1 H2 p ?; eauto]. Qed.

Global Instance no_conversion_preorder : PreOrder no_conversion.
Proof.
  split.
  - intros w. exists []. by rewrite app_nil_r.
  - intros w1 w2 w3 (l1 & E1 & F1) (l2 & E2 & F2). exists (l1 ++ l2)%list.
    rewrite E2, E1, <-(assoc_L _). split; [done|]. by apply Forall_app.
Qed.

(** ** What each primitive does to the world *)

Section PrimitiveFacts.
Context {L : Library}.

Ltac prim :=
  intros w;
  repeat match goal with
         | |- context [match fs ?w !! ?p with _ => _ end] =>
             destruct (fs w !! p) as [[]|] eqn:?
         end; simpl.

Lemma insert_file_no_new_dirs w p b :
  no_new_dirs w (set_fs <[p := File b]> w).
Proof.
  intros q. simpl. rewrite lookup_insert. by case_decide.
Qed.

Lemma insert_file_keeps_files w p b :
  keeps_files w (set_fs <[p := File b]> w).
Proof.
  intros q. simpl. rewrite lookup_insert. by case_decide.
Qed.

Lemma delete_no_new_dirs w p : no_new_dirs w (set_fs (delete p) w).
Proof.
  intros q. simpl. rewrite lookup_delete. by case_decide.
Qed.

(** Random draws are never given back. *)
Lemma random_uuid_entropy : preserves entropy_grows random_uuid.
Proof. intros w. unfold entropy_grows. simpl. lia. Qed.

Lemma open_wb_entropy p : preserves entropy_grows (open_wb p).
Proof. unfold open_wb. prim; unfold entropy_grows; simpl; lia. Qed.

Lemma fwrite_entropy p b : preserves entropy_grows (fwrite p b).
Proof. intros w. unfold entropy_grows. simpl. lia. Qed.

Lemma read_file_entropy p : preserves entropy_grows (read_file p).
Proof. unfold read_file. prim; unfold entropy_grows; simpl; lia. Qed.

Lemma NamedTemporaryFile_entropy sfx : preserves entropy_grows (NamedTemporaryFile sfx).
Proof. unfold NamedTemporaryFile. prim; unfold entropy_grows; simpl; lia. Qed.

Lemma mkdtemp_entropy : preserves entropy_grows mkdtemp.
Proof. unfold mkdtemp. prim; unfold entropy_grows; simpl; lia. Qed.

Lemma os_unlink_entropy p : preserves entropy_grows (os_unlink p).
Proof. unfold os_unlink. prim; unfold entropy_grows; simpl; lia. Qed.

Lemma os_path_exists_entropy p : preserves entropy_grows (os_path_exists p).
Proof. intros w. unfold entropy_grows. simpl. lia. Qed.

Lemma log_entropy c : preserves entropy_grows (modify (log c)).
Proof. intros w. unfold entropy_grows. simpl. lia. Qed.

(** Only [mkdtemp] makes a directory. *)
Lemma random_uuid_dirs : preserves no_new_dirs random_uuid.
Proof. by intros w p. Qed.

Lemma open_wb_dirs p : preserves no_new_dirs (open_wb p).
Proof.
  unfold open_wb. prim; try reflexivity; apply insert_file_no_new_dirs.
Qed.

Lemma fwrite_dirs p b : preserves no_new_dirs (fwrite p b).
Proof. intros w. apply insert_file_no_new_dirs. Qed.

Lemma read_file_dirs p : preserves no_new_dirs (read_file p).
Proof. unfold read_file. prim; reflexivity. Qed.

Lemma NamedTemporaryFile_dirs sfx : preserves no_new_dirs (NamedTemporaryFile sfx).
Proof.
  unfold NamedTemporaryFile. prim; try by intros p.
  intros p. simpl. rewrite lookup_insert. by case_decide.
Qed.

Lemma os_unlink_dirs p : preserves no_new_dirs (os_unlink p).
Proof. unfold os_unlink. prim; try reflexivity. apply delete_no_new_dirs. Qed.

Lemma os_path_exists_dirs p : preserves no_new_dirs (os_path_exists p).
Proof. intros w. reflexivity. Qed.

Lemma log_dirs c : preserves no_new_dirs (modify (log c)).
Proof. by intros w p. Qed.

(** Writing and reading never remove a file. *)
Lemma open_wb_files p : preserves keeps_files (open_wb p).
Proof.
  unfold open_wb. prim; try reflexivity; apply insert_file_keeps_files.
Qed.

Lemma fwrite_files p b : preserves keeps_files (fwrite p b).
Proof. intros w. apply insert_file_keeps_files. Qed.

Lemma read_file_files p : preserves keeps_files (read_file p).
Proof. unfold read_file. prim; reflexivity. Qed.

Lemma log_files c : preserves keeps_files (modify (log c)).
Proof. by intros w p. Qed.

(** Only [convert] logs a conversion. *)
Lemma open_wb_calls p : preserves no_conversion (open_wb p).
Proof. unfold open_wb. prim; exists []; by rewrite app_nil_r. Qed.

Lemma fwrite_calls p b : preserves no_conversion (fwrite p b).
Proof. intros w. exists []. by rewrite app_nil_r. Qed.

Lemma read_file_calls p : preserves no_conversion (read_file p).
Proof. unfold read_file. prim; reflexivity. Qed.

Lemma mkdtemp_calls : preserves no_conversion mkdtemp.
Proof. unfold mkdtemp. prim; exists []; by rewrite app_nil_r. Qed.

Lemma log_calls c : is_convert c = false → preserves no_conversion (modify (log c)).
Proof. intros Hc w. exists [c]. split; [done|]. by apply Forall_singleton. Qed.

Lemma rmtree_calls d w : calls (rmtree d w) = calls w.
Proof. done. Qed.
End PrimitiveFacts.

#[export] Hint Resolve random_uuid_entropy open_wb_entropy fwrite_entropy
  read_file_entropy NamedTemporaryFile_entropy mkdtemp_entropy os_unlink_entropy
  os_path_exists_entropy log_entropy
  random_uuid_dirs open_wb_dirs fwrite_dirs read_file_dirs NamedTemporaryFile_dirs
  os_unlink_dirs os_path_exists_dirs log_dirs
  open_wb_files fwrite_files read_file_files log_files
  open_wb_calls fwrite_calls read_file_calls mkdtemp_calls log_calls : frames.

#[export] Hint Unfold AudioSegment_from_file AudioSegment_export get_se tts convert
  os_remove : frames.

(** ** The handlers of app.py *)

Import Api.

Section ApiFacts.
Context {L : Library}.
Implicit Types (s : state) (w : world).

Global Instance on_env_preorder (R : relation world) `{!PreOrder R} :
  PreOrder (on_env R).
Proof.
  split; unfold on_env; [intros s; reflexivity|].
  intros s1 s2 s3 ??. by etrans.
Qed.

Global Instance same_registry_preorder : PreOrder same_registry.
Proof.
  split; unfold same_registry; [done|]. intros s1 s2 s3 ??. congruence.
Qed.

Lemma in_world_inv {A} (m : M world A) s r s' :
  in_world m s = (r, s') →
  ∃ w', m (env s) = (r, w') ∧ s' = State (reference_audios s) w'.
Proof.
  unfold in_world. destruct (m (env s)) as [r0 w0].
  intros [= <- <-]. eauto.
Qed.

Lemma in_world_on_env {A} (R : relation world) (m : M world A) :
  preserves R m → preserves (on_env R) (in_world m).
Proof.
  intros Hm s. unfold on_env, in_world. specialize (Hm (env s)).
  by destruct (m (env s)).
Qed.

Lemma in_world_same_registry {A} (m : M world A) :
  preserves same_registry (in_world m).
Proof. intros s. unfold same_registry, in_world. by destruct (m (env s)). Qed.

Lemma getitem_on_env (R : relation world) `{!PreOrder R} k :
  preserves (on_env R) (getitem k).
Proof.
  intros s. unfold getitem, on_env.
  destruct (dict_get k (reference_audios s)); reflexivity.
Qed.

Lemma getitem_same_registry k : preserves same_registry (getitem k).
Proof.
  intros s. unfold getitem. by destruct (dict_get k (reference_audios s)).
Qed.

Lemma setitem_on_env (R : relation world) `{!PreOrder R} k r :
  preserves (on_env R) (setitem k r).
Proof. intros s. unfold on_env. simpl. reflexivity. Qed.

Lemma delitem_on_env (R : relation world) `{!PreOrder R} k :
  preserves (on_env R) (delitem k).
Proof. intros s. unfold on_env. simpl. reflexivity. Qed.

Lemma serve_state (h : M state response) s : (serve h s).2 = (h s).2.
Proof. unfold serve. by destruct (h s) as [[[]|] ?]. Qed.
End ApiFacts.

#[export] Hint Resolve in_world_on_env in_world_same_registry getitem_on_env
  getitem_same_registry setitem_on_env delitem_on_env : frames.

Section UploadFacts.
Context {L : Library}.
Implicit Types (s : state) (w : world).

Lemma tmp_path_not_processed x sfx v :
  gettempdir +:+ "/tmp" +:+ x +:+ sfx ≠ "processed_" +:+ v +:+ ".wav".
Proof. unfold gettempdir. simpl. discriminate. Qed.

Lemma new_temp_file sfx content w p w' :
  (tmp_path ← NamedTemporaryFile sfx; fwrite tmp_path content;; mret tmp_path) w
    = (inr p, w') →
  p = gettempdir +:+ "/tmp" +:+ tmp_name (entropy w) +:+ sfx
  ∧ fs w !! p = None
  ∧ w' = World (<[p := File content]> (fs w)) (S (entropy w)) (calls w).
Proof.
  unfold mbind, M_bind, NamedTemporaryFile, fwrite, modify, mret, M_ret. simpl.
  destruct (fs w !! _) eqn:E; [done|].
  intros [= <- <-]. split_and!; [done..|].
  unfold set_fs, draw. simpl. by rewrite insert_insert_eq.
Qed.

Lemma export_creates_file a p w w' :
  AudioSegment_export a p w = (inr (), w') → is_file (fs w' !! p).
Proof.
  unfold AudioSegment_export, mbind, M_bind, open_wb, lift_result, fwrite, modify.
  destruct (fs w !! p) as [[]|]; simpl; try done;
    destruct (export_wav a); simpl; try done;
    intros [= <-]; simpl; by rewrite lookup_insert_eq.
Qed.

Lemma os_unlink_file p w :
  is_file (fs w !! p) → os_unlink p w = (inr (), set_fs (delete p) w).
Proof. unfold os_unlink. by destruct (fs w !! p) as [[]|]. Qed.
End UploadFacts.

(** ** Runs in which every library call succeeds *)

Section SuccessfulRuns.
Context {L : Library}.
Implicit Types (w : world).

Lemma new_temp_file_run sfx content w :
  let p := gettempdir +:+ "/tmp" +:+ tmp_name (entropy w) +:+ sfx in
  fs w !! p = None →
  (tmp_path ← NamedTemporaryFile sfx; fwrite tmp_path content;; mret tmp_path) w
  = (inr p, World (<[p := File content]> (fs w)) (S (entropy w)) (calls w)).
Proof.
  intros p Hp. unfold mbind, M_bind, NamedTemporaryFile, fwrite, modify, mret, M_ret.
  cbn [draw fs entropy calls]. fold p. rewrite Hp. unfold set_fs, draw.
  cbn [fs entropy calls]. by rewrite insert_insert_eq.
Qed.

Lemma from_file_run p c a w :
  fs w !! p = Some (File c) → from_file c = inr a →
  AudioSegment_from_file p w = (inr a, w).
Proof.
  intros Hp Ha. unfold AudioSegment_from_file, mbind, M_bind, read_file, lift_result.
  by rewrite Hp, Ha.
Qed.

Lemma export_run a p b w :
  fs w !! p ≠ Some Dir → export_wav a = inr b →
  AudioSegment_export a p w = (inr (), set_fs <[p := File b]> w).
Proof.
  intros Hp Hb.
  unfold AudioSegment_export, mbind, M_bind, open_wb, lift_result, fwrite, modify.
  rewrite Hb. unfold set_fs.
  destruct (fs w !! p) as [[]|]; try done;
    cbn [fs entropy calls]; by rewrite insert_insert_eq.
Qed.

Lemma get_se_run p b se w :
  fs w !! p = Some (File b) → se_get_se b = inr se →
  get_se p w = (inr se, log (CallGetSE p) w).
Proof.
  intros Hp Hse. unfold get_se, mbind, M_bind, modify, read_file, lift_result.
  cbn [log fs]. by rewrite Hp, Hse.
Qed.
End SuccessfulRuns.

(** Run the first step of a sequence and split on its outcome. *)
Ltac bind_step :=
  lazymatch goal with
  | |- context [@mbind _ _ _ _ ?f ?m ?st] =>
      let E := fresh "E" in
      change (mbind f m st)
        with (match m st with (inr a, s') => f a s' | (inl e, s') => (inl e, s') end);
      destruct (m st) as [[?e|?a] ?s] eqn:E; cbn beta iota
  end.

Ltac tidy := cbn [env reference_audios fst snd] in *.

(** Run the first step of a sequence forwards. *)
Ltac astep :=
  unfold mbind at 1, M_bind at 1; try unfold in_world at 1;
  cbn [env reference_audios].

(** Decompose a handler into its steps and frame each one. *)
Ltac frames :=
  autounfold with frames;
  repeat first
    [ progress intros
    | lazymatch goal with
      | |- preserves (on_env _) (in_world _) => apply in_world_on_env
      | |- preserves _ (try_except _ _) => apply preserves_try; [apply _| |]
      | |- preserves _ (mbind _ _) => apply preserves_bind; [apply _| |]
      | |- preserves _ (if _ then _ else _) => apply preserves_if
      | |- preserves _ (match ?x with _ => _ end) => destruct x
      end ];
  eauto with frames typeclass_instances.


Section UploadCases.
Context {L : Library}.
Implicit Types (s : state) (w : world).

Lemma from_file_files p : preserves keeps_files (AudioSegment_from_file p).
Proof. frames. Qed.

Lemma export_files a p : preserves keeps_files (AudioSegment_export a p).
Proof. frames. Qed.

Lemma get_se_files p : preserves keeps_files (get_se p).
Proof. frames. Qed.

Lemma upload_cases file s :
  let v := uuid4 (entropy (env s)) in
  let p := "processed_" +:+ v +:+ ".wav" in
  let '(r, s') := upload_voice_sample file s in
  (∃ e, r = inl (HTTPException 500 ("Error processing voice sample: " +:+ str_exn e))
        ∧ reference_audios s' = reference_audios s)
  ∨ (∃ se, r = inr (JSONResponse [("voice_id", JString v);
                      ("message", JString "Voice sample uploaded successfully")])
        ∧ reference_audios s' = dict_set v (VoiceRecord se p) (reference_audios s)
        ∧ is_file (fs (env s') !! p)).
Proof.
  intros v p. unfold upload_voice_sample, upload_voice_sample_try, try_except.
  bind_step; [done|]. injection E as <- <-. fold v p.
  bind_step; apply in_world_inv in E as (w1 & E & ->); [left; eauto|].
  apply new_temp_file in E as (Ht & _ & ->). tidy.
  bind_step; apply in_world_inv in E as (w2 & E & ->); [left; eauto|]. tidy.
  apply (run_preserves keeps_files) in E as F2; [|apply from_file_files].
  bind_step; apply in_world_inv in E0 as (w3 & E0 & ->); [left; eauto|]. tidy.
  apply (run_preserves keeps_files) in E0 as F3; [|apply export_files].
  destruct a1. apply export_creates_file in E0 as Hp.
  bind_step; apply in_world_inv in E1 as (w4 & E1 & ->); [left; eauto|]. tidy.
  apply (run_preserves keeps_files) in E1 as F4; [|apply get_se_files].
  bind_step; [done|]. injection E2 as <- <-.
  assert (is_file (fs w4 !! a)) as Hfile.
  { apply F4, F3, F2. simpl. by rewrite lookup_insert_eq. }
  bind_step; apply in_world_inv in E2 as (w5 & E2 & ->); tidy;
    rewrite (os_unlink_file _ _ Hfile) in E2; [done|].
  injection E2 as E2. subst w5. simpl.
  right. exists a1. split_and!; [done..|].
  unfold set_fs; simpl. rewrite lookup_delete_ne; [by apply F4|].
  subst a. apply tmp_path_not_processed.
Qed.
End UploadCases.

Section ConvertFacts.
Context {L : Library}.
Implicit Types (s : state) (w : world).

Lemma with_tmpdir_same_registry {A} (body : string → M state A) :
  (∀ d, preserves same_registry (body d)) →
  preserves same_registry (with_TemporaryDirectory body).
Proof.
  intros Hb s. unfold with_TemporaryDirectory, same_registry.
  bind_step; apply in_world_inv in E as (w1 & E & ->); [done|].
  specialize (Hb a (State (reference_audios s) w1)).
  by destruct (body a _).
Qed.

Lemma with_tmpdir_on_env {A} (R : relation world) `{!PreOrder R}
    (body : string → M state A) :
  preserves R mkdtemp →
  (∀ d w w', R w w' → R w (rmtree d w')) →
  (∀ d, preserves (on_env R) (body d)) →
  preserves (on_env R) (with_TemporaryDirectory body).
Proof.
  intros Hmk Hrm Hb s. unfold with_TemporaryDirectory, on_env.
  bind_step; apply in_world_inv in E as (w1 & E & ->);
    apply (run_preserves R) in E; try done.
  specialize (Hb a (State (reference_audios s) w1)). unfold on_env in Hb.
  destruct (body a _) as [r s2]. tidy. apply Hrm. by etrans.
Qed.

Lemma rmtree_lookup d w p :
  fs (rmtree d w) !! p
  = if decide (p ≠ d ∧ inside d p = false) then fs w !! p else None.
Proof.
  unfold rmtree, set_fs. simpl. case_decide as Hp.
  - destruct (fs w !! p) eqn:E.
    + by apply map_lookup_filter_Some_2.
    + apply map_lookup_filter_None_2. by left.
  - apply map_lookup_filter_None_2. right. intros n _. exact Hp.
Qed.

(** The directory of a [with] block is gone when the block is left. *)
Lemma with_tmpdir_dirs {A} (body : string → M state A) :
  (∀ d, preserves (on_env no_new_dirs) (body d)) →
  preserves (on_env no_new_dirs) (with_TemporaryDirectory body).
Proof.
  intros Hb s. unfold with_TemporaryDirectory, on_env.
  bind_step; apply in_world_inv in E as (w1 & E & ->); tidy.
  - unfold mkdtemp in E. destruct (fs (draw (env s)) !! _); [|done].
    injection E as _ <-. by intros p.
  - unfold mkdtemp in E. destruct (fs (draw (env s)) !! _) eqn:Hd; [done|].
    injection E as <- <-.
    set (d := gettempdir +:+ "/tmp" +:+ tmp_name (entropy (env s))) in *.
    specialize (Hb d (State (reference_audios s) (set_fs <[d:=Dir]> (draw (env s))))).
    unfold on_env in Hb. destruct (body d _) as [r s2]. tidy.
    intros p. rewrite rmtree_lookup. case_decide as Hp; [|done].
    intros Hdir%Hb. simpl in Hdir.
    rewrite lookup_insert_ne in Hdir; [done|]. by intros <-; destruct Hp.
Qed.

Lemma rmtree_entropy d w w' : entropy_grows w w' → entropy_grows w (rmtree d w').
Proof. done. Qed.

Lemma rmtree_no_conversion d w w' : no_conversion w w' → no_conversion w (rmtree d w').
Proof. done. Qed.

Lemma convert_pdf_same_registry pdf vid lang :
  preserves same_registry (convert_pdf pdf vid lang).
Proof.
  unfold convert_pdf, convert_pdf_try. frames.
  apply with_tmpdir_same_registry. unfold synthesize. frames.
Qed.

Lemma synthesize_on_env (R : relation world) `{!PreOrder R} t vid lang d :
  (∀ p, preserves R (open_wb p)) →
  (∀ p b, preserves R (fwrite p b)) →
  (∀ p, preserves R (read_file p)) →
  (∀ c, preserves R (modify (log c))) →
  preserves (on_env R) (synthesize t vid lang d).
Proof. intros ????. unfold synthesize. frames. Qed.

Lemma convert_pdf_entropy pdf vid lang :
  preserves (on_env entropy_grows) (convert_pdf pdf vid lang).
Proof.
  unfold convert_pdf, convert_pdf_try. frames.
  apply with_tmpdir_on_env; [apply _|frames|apply rmtree_entropy|].
  intros d. apply synthesize_on_env; frames.
Qed.

Lemma convert_pdf_dirs pdf vid lang :
  preserves (on_env no_new_dirs) (convert_pdf pdf vid lang).
Proof.
  unfold convert_pdf, convert_pdf_try. frames.
  apply with_tmpdir_dirs.
  intros d. apply synthesize_on_env; frames.
Qed.

(** Without a voice, no conversion is made. *)
Lemma convert_pdf_no_voice_calls pdf lang :
  preserves (on_env no_conversion) (convert_pdf pdf None lang).
Proof.
  unfold convert_pdf, convert_pdf_try. frames.
  apply with_tmpdir_on_env; [apply _|frames|apply rmtree_no_conversion|].
  intros d. unfold synthesize. simpl. frames.
Qed.

(** A voice that is not chosen is as good as none. *)
Lemma synthesize_default t vid lang d s :
  chosen_voice vid (reference_audios s) = None →
  synthesize t vid lang d s = synthesize t None lang d s.
Proof.
  intros Hv. unfold synthesize, mbind, M_bind.
  destruct (in_world _ s) as [[e|[]] s1] eqn:E; [done|].
  apply in_world_inv in E as (w1 & _ & ->). simpl. by rewrite Hv.
Qed.

Lemma convert_pdf_default pdf vid lang s :
  chosen_voice vid (reference_audios s) = None →
  convert_pdf pdf vid lang s = convert_pdf pdf None lang s.
Proof.
  intros Hv. unfold convert_pdf, convert_pdf_try, try_except, mbind, M_bind, lift_result.
  destruct (PdfReader pdf) as [e|pages]; [done|].
  destruct (extract_pages pages []) as [e|t]; [done|].
  destruct (negb _); [done|].
  unfold with_TemporaryDirectory, mbind, M_bind.
  destruct (in_world mkdtemp s) as [[e|d] s1] eqn:E; [done|].
  apply in_world_inv in E as (w1 & _ & ->).
  by rewrite synthesize_default.
Qed.

(** Without a voice, the registry plays no part. *)
Lemma convert_pdf_registry_blind pdf lang d1 d2 w :
  (convert_pdf pdf None lang (State d1 w)).1
    = (convert_pdf pdf None lang (State d2 w)).1
  ∧ env (convert_pdf pdf None lang (State d1 w)).2
    = env (convert_pdf pdf None lang (State d2 w)).2.
Proof.
  unfold convert_pdf, convert_pdf_try, try_except, mbind, M_bind, lift_result.
  destruct (PdfReader pdf) as [e|pages]; [done|].
  destruct (extract_pages pages []) as [e|t]; [done|].
  destruct (negb _); [done|].
  unfold with_TemporaryDirectory, mbind, M_bind, in_world. tidy.
  destruct (mkdtemp w) as [[e|d] w1]; [done|].
  unfold synthesize, mbind, M_bind, in_world. tidy.
  destruct (tts t _ lang w1) as [[e|[]] w2]; done.
Qed.
End ConvertFacts.

Section StepFacts.
Context {L : Library}.
Implicit Types (s : state) (w : world).

Lemma upload_entropy file : preserves (on_env entropy_grows) (upload_voice_sample file).
Proof. unfold upload_voice_sample, upload_voice_sample_try. frames. Qed.

Lemma upload_dirs file : preserves (on_env no_new_dirs) (upload_voice_sample file).
Proof. unfold upload_voice_sample, upload_voice_sample_try. frames. Qed.

(** Every upload draws an identifier, also when it fails later. *)
Lemma upload_draws file s :
  (entropy (env s) < entropy (env (upload_voice_sample file s).2))%nat.
Proof.
  unfold upload_voice_sample, upload_voice_sample_try, try_except.
  bind_step; [done|]. injection E as <- <-.
  lazymatch goal with
  | |- context [@mbind _ _ _ _ ?f ?m ?st] =>
      assert (preserves (on_env entropy_grows) (mbind f m)) as H by frames;
      specialize (H st); destruct (mbind f m st) as [[e|r] s1]
  end; unfold on_env, entropy_grows in H; simpl in *; lia.
Qed.

Lemma delete_entropy v : preserves (on_env entropy_grows) (delete_voice v).
Proof. unfold delete_voice. frames. Qed.

Lemma delete_dirs v : preserves (on_env no_new_dirs) (delete_voice v).
Proof. unfold delete_voice. frames. Qed.

(** The three ways [delete_voice] can end. *)
Lemma delete_cases v s :
  let '(r, s') := delete_voice v s in
  match dict_get v (reference_audios s) with
  | None => r = inl (HTTPException 404 "Voice ID not found") ∧ s' = s
  | Some rec =>
      (fs (env s) !! audio_path rec = Some Dir
       ∧ r = inl (PyError "IsADirectoryError" (audio_path rec)) ∧ s' = s)
      ∨ (fs (env s) !! audio_path rec ≠ Some Dir
         ∧ r = inr (JSONResponse
                [("message", JString ("Voice " +:+ v +:+ " deleted successfully"))])
         ∧ reference_audios s' = dict_del v (reference_audios s)
         ∧ fs (env s') = delete (audio_path rec) (fs (env s)))
  end.
Proof.
  unfold delete_voice, dict_contains, mbind, M_bind, get_state, getitem.
  destruct (dict_get v (reference_audios s)) as [rec|] eqn:Hv; simpl.
  - rewrite Hv. simpl.
    unfold in_world, os_path_exists, os_remove, os_unlink. simpl.
    destruct (fs (env s) !! audio_path rec) as [[b|]|] eqn:Hp; simpl.
    + rewrite Hp. simpl. right. split_and!; done.
    + rewrite Hp. simpl. left. by destruct s.
    + right. split_and!; try done. by rewrite delete_id.
  - done.
Qed.
End StepFacts.

Section Invariants.
Context {L : Library}.
Implicit Types (s : state) (w : world) (r : request).

Lemma step_state r s : (step r s).2 = (handler r s).2.
Proof. apply serve_state. Qed.

Lemma handler_entropy r : preserves (on_env entropy_grows) (handler r).
Proof.
  destruct r; simpl;
    [unfold root; frames | apply upload_entropy | apply convert_pdf_entropy
    | unfold list_voices; frames | apply delete_entropy].
Qed.

Lemma handler_dirs r : preserves (on_env no_new_dirs) (handler r).
Proof.
  destruct r; simpl;
    [unfold root; frames | apply upload_dirs | apply convert_pdf_dirs
    | unfold list_voices; frames | apply delete_dirs].
Qed.

Lemma step_entropy r s : (entropy (env s) ≤ entropy (env (step r s).2))%nat.
Proof. rewrite step_state. apply (handler_entropy r s). Qed.

Lemma step_dirs r s : no_new_dirs (env s) (env (step r s).2).
Proof. rewrite step_state. apply (handler_dirs r s). Qed.

(** How one request can change the registry. *)
Lemma step_registry r s :
  let s' := (step r s).2 in
  let v := uuid4 (entropy (env s)) in
  reference_audios s' = reference_audios s
  ∨ (∃ file se,
       r = UploadVoiceSample file
       ∧ reference_audios s'
         = dict_set v (VoiceRecord se ("processed_" +:+ v +:+ ".wav"))
             (reference_audios s)
       ∧ is_file (fs (env s') !! ("processed_" +:+ v +:+ ".wav")))
  ∨ (∃ v', r = DeleteVoice v'
       ∧ reference_audios s' = dict_del v' (reference_audios s)).
Proof.
  intros s' v. subst s'. rewrite step_state. destruct r as [|file|pdf vid lang| |v']; simpl.
  - by left.
  - pose proof (upload_cases file s) as H. simpl in H.
    destruct (upload_voice_sample file s) as [r s'].
    destruct H as [(e & _ & ?)|(se & _ & ? & ?)]; [by left|].
    right; left. by exists file, se.
  - left. apply (convert_pdf_same_registry pdf vid lang s).
  - by left.
  - pose proof (delete_cases v' s) as H.
    destruct (delete_voice v' s) as [r s'].
    destruct (dict_get v' (reference_audios s)) as [rec|].
    + destruct H as [(_ & _ & ->)|(_ & _ & ? & _)]; [by left|].
      right; right. by exists v'.
    + destruct H as [_ ->]. by left.
Qed.

Lemma step_registry_ok r s : registry_ok s → registry_ok (step r s).2.
Proof.
  intros Hok k rec Hk.
  pose proof (step_entropy r s) as Hent.
  pose proof (step_dirs r s) as Hdirs.
  pose proof (upload_draws) as Hdraw.
  assert (dict_get k (reference_audios s) = Some rec →
          (∃ n, n < entropy (env (step r s).2) ∧ k = uuid4 n)
          ∧ fs (env (step r s).2) !! audio_path rec ≠ Some Dir) as Hold.
  { intros [(n & Hn & ->) Hp]%Hok. split; [exists n; split; [lia|done]|].
    intros Hd. by apply Hp, Hdirs. }
  destruct (step_registry r s) as [E|[(file & se & -> & E & Hf)|(v' & -> & E)]];
    rewrite E in Hk.
  - by apply Hold.
  - destruct (decide (uuid4 (entropy (env s)) = k)) as [<-|Hne].
    + rewrite dict_get_set_eq in Hk. injection Hk as <-. simpl. split.
      * exists (entropy (env s)). split; [|done].
        rewrite step_state. apply upload_draws.
      * intros Hd. by rewrite Hd in Hf.
    + rewrite dict_get_set_ne in Hk by done. by apply Hold.
  - destruct (decide (v' = k)) as [<-|Hne].
    + by rewrite dict_get_del_eq in Hk.
    + rewrite dict_get_del_ne in Hk by done. by apply Hold.
Qed.

(** The registry is well formed in every reachable state. *)
Lemma reachable_registry_ok s : reachable s → registry_ok s.
Proof.
  induction 1 as [w|r s _ IH]; [by intros k rec ?|].
  by apply step_registry_ok.
Qed.

(** A registered voice stays registered until it is deleted. *)
Lemma step_keeps_key r s v :
  r ≠ DeleteVoice v →
  v ∈ dict_keys (reference_audios s) →
  v ∈ dict_keys (reference_audios (step r s).2).
Proof.
  intros Hr Hv.
  destruct (step_registry r s) as [E|[(file & se & -> & E & _)|(v' & -> & E)]];
    rewrite E.
  - done.
  - apply dict_keys_set. by right.
  - apply dict_keys_del. split; [|done]. congruence.
Qed.

Lemma run_keeps_key rs s v :
  DeleteVoice v ∉ rs →
  v ∈ dict_keys (reference_audios s) →
  v ∈ dict_keys (reference_audios (run rs s)).
Proof.
  revert s. induction rs as [|r rs IH]; intros s Hrs Hv; simpl; [done|].
  apply not_elem_of_cons in Hrs as [Hr Hrs].
  apply IH; [done|]. by apply step_keeps_key.
Qed.

(** A retired identifier stays retired. *)
Lemma step_retired r s v : retired v s → retired v (step r s).2.
Proof.
  intros [Hv Hfresh]. pose proof (step_entropy r s) as Hent. split.
  - destruct (step_registry r s) as [E|[(file & se & -> & E & _)|(v' & -> & E)]];
      rewrite E.
    + done.
    + rewrite dict_keys_set. intros [->|?]; [|done].
      by apply (Hfresh (entropy (env s))).
    + rewrite dict_keys_del. by intros [_ ?].
  - intros n Hn. apply Hfresh. lia.
Qed.

Lemma run_retired rs s v : retired v s → retired v (run rs s).
Proof.
  revert s. induction rs as [|r rs IH]; intros s Hv; simpl; [done|].
  by apply IH, step_retired.
Qed.

Lemma list_voices_listed s :
  listed (step ListVoices s).1 = dict_keys (reference_audios s).
Proof. done. Qed.
End Invariants.

(** * The claims about app.py *)

Lemma demo_uuid4_inj : Inj (=) (=) (@uuid4 demo).
Proof. intros n m H. simpl in H. by simplify_eq. Qed.

Section ApiClaims.
Context {L : Library}.
Implicit Types (s : state) (w : world) (r : request).

(** C1. When [upload_voice_sample] succeeds and returns the identifier
    [v], every later [list_voices] names [v], as long as no request in
    between deletes [v]. *)
Theorem uploaded_voice_is_listed file s v (rs : list request) :
  (step (UploadVoiceSample file) s).1
    = JSONResponse [("voice_id", JString v);
                    ("message", JString "Voice sample uploaded successfully")] →
  DeleteVoice v ∉ rs →
  v ∈ listed (step ListVoices (run rs (step (UploadVoiceSample file) s).2)).1.
Proof.
  intros Hresp Hrs. rewrite list_voices_listed.
  apply run_keeps_key; [done|].
  pose proof (upload_cases file s) as H. unfold step, serve in *. simpl in *.
  destruct (upload_voice_sample file s) as [r s'].
  destruct H as [(e & -> & _)|(se & -> & E & _)]; simpl in *; [done|].
  injection Hresp as <-. rewrite E. apply dict_keys_set. by left.
Qed.

(** C9. An upload that answers with an error leaves the registry as it
    was. *)
Theorem failed_upload_keeps_registry file s :
  is_error (step (UploadVoiceSample file) s).1 = true →
  reference_audios (step (UploadVoiceSample file) s).2 = reference_audios s.
Proof.
  pose proof (upload_cases file s) as H. unfold step, serve. simpl in *.
  destruct (upload_voice_sample file s) as [r s'].
  by destruct H as [(e & -> & ?)|(se & -> & _)].
Qed.

(** C6. [convert_pdf] and [list_voices] (and [root]) leave the registry
    as it was; an upload removes no key and a deletion adds none. *)
Theorem registry_changes_only_by_upload_and_delete s :
  (∀ pdf vid lang,
     reference_audios (step (ConvertPdf pdf vid lang) s).2 = reference_audios s)
  ∧ reference_audios (step ListVoices s).2 = reference_audios s
  ∧ reference_audios (step Root s).2 = reference_audios s
  ∧ (∀ file, dict_keys (reference_audios s)
             ⊆ dict_keys (reference_audios (step (UploadVoiceSample file) s).2))
  ∧ (∀ v, dict_keys (reference_audios (step (DeleteVoice v) s).2)
          ⊆ dict_keys (reference_audios s)).
Proof.
  split_and!; try done.
  - intros pdf vid lang. rewrite step_state.
    apply (convert_pdf_same_registry pdf vid lang s).
  - intros file k Hk. by apply step_keeps_key.
  - intros v k.
    destruct (step_registry (DeleteVoice v) s)
      as [E|[(file & se & ? & _)|(v' & _ & E)]]; try done; rewrite E; [done|].
    rewrite dict_keys_del. by intros [_ ?].
Qed.
End ApiClaims.

Lemma uploaded_voice_is_listed_witness :
  "voice-0" ∈ listed (@step demo ListVoices
     (run [ConvertPdf [Byte.x41] None "english"; DeleteVoice "voice-7"; ListVoices]
        (step (UploadVoiceSample [Byte.x01]) (start empty_world)).2)).1.
Proof.
  apply (@uploaded_voice_is_listed demo); [vm_compute; reflexivity|].
  apply (bool_decide_unpack _). vm_compute. reflexivity.
Defined.

Lemma failed_upload_keeps_registry_witness :
  reference_audios (@step demo (UploadVoiceSample []) (start empty_world)).2 = [].
Proof.
  apply (@failed_upload_keeps_registry demo [] (start empty_world)).
  vm_compute. reflexivity.
Defined.

Section DeleteClaim.
Context {L : Library}.
Implicit Types (s : state) (w : world) (r : request).

(** C2. In a reachable state, deleting a registered voice [v] succeeds,
    removes its record and its backing file, and no later [list_voices]
    names [v] again, whatever requests come in between.  Identifiers
    drawn by [uuid4] are taken to be unique. *)
Theorem delete_known_voice s v rec (rs : list request) :
  Inj (=) (=) uuid4 →
  reachable s →
  dict_get v (reference_audios s) = Some rec →
  (step (DeleteVoice v) s).1
    = JSONResponse [("message", JString ("Voice " +:+ v +:+ " deleted successfully"))]
  ∧ dict_get v (reference_audios (step (DeleteVoice v) s).2) = None
  ∧ fs (env (step (DeleteVoice v) s).2) !! audio_path rec = None
  ∧ v ∉ listed (step ListVoices (run rs (step (DeleteVoice v) s).2)).1.
Proof.
  intros Hinj Hreach Hv.
  destruct (reachable_registry_ok s Hreach v rec Hv) as [(n & Hn & ->) Hdir].
  pose proof (step_entropy (DeleteVoice (uuid4 n)) s) as Hent.
  pose proof (delete_cases (uuid4 n) s) as H. rewrite Hv in H.
  unfold step, serve in *. simpl in *.
  destruct (delete_voice (uuid4 n) s) as [r s'].
  destruct H as [(? & _)|(_ & -> & E & Efs)]; [done|]. simpl in *.
  assert (dict_get (uuid4 n) (reference_audios s') = None) as Hgone.
  { rewrite E. apply dict_get_del_eq. }
  split_and!; [done|done|by rewrite Efs, lookup_delete_eq|].
  apply (run_retired rs s' (uuid4 n)). split.
  - rewrite elem_of_dict_keys, Hgone. by intros [? ?].
  - intros m Hm ?%Hinj. lia.
Qed.
End DeleteClaim.

Lemma delete_known_voice_witness :
  "voice-0" ∉ listed (@step demo ListVoices
     (run [UploadVoiceSample [Byte.x02]; ConvertPdf [Byte.x41] (Some "voice-0") "english"]
        (step (DeleteVoice "voice-0")
           (step (UploadVoiceSample [Byte.x01]) (start empty_world)).2).2)).1.
Proof.
  apply (@delete_known_voice demo
           (step (UploadVoiceSample [Byte.x01]) (start empty_world)).2
           "voice-0" (VoiceRecord ([Byte.x01] : @SE demo) "processed_voice-0.wav")).
  - apply demo_uuid4_inj.
  - apply reachable_step, reachable_start.
  - vm_compute. reflexivity.
Defined.

Section ConvertClaims.
Context {L : Library}.
Implicit Types (s : state) (w : world) (r : request).

Lemma chosen_voice_unknown vid (d : dict voice_record) :
  match vid with Some v => v ∉ dict_keys d | None => True end →
  chosen_voice vid d = None.
Proof.
  destruct vid as [v|]; simpl; [|done]. intros Hv.
  destruct (dict_contains v d) eqn:E; [|by rewrite andb_false_r].
  by apply dict_contains_keys in E.
Qed.

(** [convert_pdf] returns a file response or raises a 500. *)
Lemma convert_pdf_cases pdf vid lang s :
  (∃ e, (convert_pdf pdf vid lang s).1
        = inl (HTTPException 500 ("Error converting PDF: " +:+ str_exn e)))
  ∨ (∃ p, (convert_pdf pdf vid lang s).1
          = inr (FileResponse p "audio/wav" "converted_audio.wav")).
Proof.
  unfold convert_pdf, convert_pdf_try, try_except.
  bind_step; [left; eauto|]. bind_step; [left; eauto|].
  destruct (negb _); [left; eauto|].
  unfold with_TemporaryDirectory.
  bind_step; [left; eauto|].
  unfold synthesize.
  bind_step; [left; eauto|]. bind_step; [left; eauto|].
  destruct (chosen_voice _ _).
  - bind_step; [left; eauto|]. bind_step; [left; eauto|].
    bind_step; [left; eauto|]. right; eauto.
  - right; eauto.
Qed.

Lemma tts_calls t p lang w :
  calls (tts t p lang w).2 = (calls w ++ [CallTTS p lang])%list.
Proof.
  unfold tts, mbind, M_bind, lift_result, open_wb, fwrite, modify. simpl.
  destruct (tts_synth t lang); [done|].
  by destruct (fs w !! p) as [[]|].
Qed.

Lemma tts_run t p lang b w :
  fs w !! p ≠ Some Dir → tts_synth t lang = inr b →
  tts t p lang w
  = (inr (), World (<[p := File b]> (fs w)) (entropy w)
               (calls w ++ [CallTTS p lang])%list).
Proof.
  intros Hp Hb. unfold tts, mbind, M_bind, modify, lift_result, open_wb, fwrite.
  rewrite Hb. unfold log, set_fs. cbn [fs entropy calls].
  destruct (fs w !! p) as [[]|]; try done;
    unfold modify; cbn [fs entropy calls]; by rewrite insert_insert_eq.
Qed.

End ConvertClaims.

Section ConvertClaims2.
Context {L : Library}.
Implicit Types (s : state) (w : world) (r : request).

Lemma prefix_app (u t : string) : String.prefix u (u +:+ t) = true.
Proof.
  induction u as [|a u IH]; simpl; [by destruct t|].
  by destruct (Ascii.ascii_dec a a).
Qed.

Lemma inside_path_join d name : inside d (path_join d name) = true.
Proof.
  unfold inside, path_join. induction d as [|a d IH].
  - apply (prefix_app "/" name).
  - simpl. by destruct (Ascii.ascii_dec a a).
Qed.

Lemma synthesize_inside t vid lang d s p mt fn :
  (synthesize t vid lang d s).1 = inr (FileResponse p mt fn) → inside d p = true.
Proof.
  unfold synthesize.
  bind_step; [done|]. bind_step; [done|].
  destruct (chosen_voice _ _).
  - bind_step; [done|]. bind_step; [done|]. bind_step; [done|].
    simpl. intros [= <- <- <-]. apply inside_path_join.
  - simpl. intros [= <- <- <-]. apply inside_path_join.
Qed.

(** The file a [convert_pdf] response names is removed with the
    temporary directory, before the response leaves the handler. *)
Lemma converted_file_is_gone pdf vid lang s p mt fn :
  (step (ConvertPdf pdf vid lang) s).1 = FileResponse p mt fn →
  fs (env (step (ConvertPdf pdf vid lang) s).2) !! p = None.
Proof.
  unfold step, serve. simpl. unfold convert_pdf, convert_pdf_try, try_except.
  bind_step; [done|]. bind_step; [done|].
  destruct (negb _); [done|].
  unfold with_TemporaryDirectory.
  bind_step; [done|].
  lazymatch goal with
  | |- context [synthesize ?t ?v ?l ?d ?st] =>
      pose proof (synthesize_inside t v l d st p mt fn) as Hin;
      destruct (synthesize t v l d st) as [[e|resp] s3]
  end; cbn [fst snd env] in *; [done|].
  intros ->. rewrite rmtree_lookup, decide_False; [done|].
  intros [_ Hp]. rewrite Hin in Hp; done.
Qed.

Lemma path_join_ne d name : d ≠ path_join d name.
Proof.
  unfold path_join. induction d as [|a d IH]; simpl; [done|].
  intros [= H]. by apply IH.
Qed.

(** So the sending of a [convert_pdf] file response always fails. *)
Lemma file_response_not_sent pdf vid lang s p mt fn :
  (step (ConvertPdf pdf vid lang) s).1 = FileResponse p mt fn →
  answer (ConvertPdf pdf vid lang) s = Failure 500 "Internal Server Error".
Proof.
  intros H. unfold answer. rewrite H. cbn [send].
  by rewrite (converted_file_is_gone pdf vid lang s p mt fn H).
Qed.

(** No [convert_pdf] request delivers audio. *)
Lemma convert_pdf_never_delivers pdf vid lang s :
  failed (answer (ConvertPdf pdf vid lang) s) = true.
Proof.
  destruct (convert_pdf_cases pdf vid lang s) as [[e He]|[p Hp]].
  - unfold answer, step, serve. cbn [handler].
    destruct (convert_pdf pdf vid lang s) as [res s']. simpl in He. by subst res.
  - rewrite (file_response_not_sent pdf vid lang s p "audio/wav" "converted_audio.wav");
      [done|].
    unfold step, serve. cbn [handler].
    destruct (convert_pdf pdf vid lang s) as [res s']. simpl in Hp. by subst res.
Qed.

(** The default-voice path, when every step succeeds: the state inside
    the [with] block when [synthesize] returns, and the handler's
    outcome. *)
Lemma convert_pdf_default_run pdf vid lang s pages t b :
  let d := gettempdir +:+ "/tmp" +:+ tmp_name (entropy (env s)) in
  let base := path_join d "base_audio.wav" in
  let inner := State (reference_audios s)
                 (World (<[d := Dir]> (fs (env s))) (S (entropy (env s)))
                    (calls (env s))) in
  let written := World (<[base := File b]> (<[d := Dir]> (fs (env s))))
                   (S (entropy (env s))) (calls (env s) ++ [CallTTS base lang])%list in
  chosen_voice vid (reference_audios s) = None →
  PdfReader pdf = inr pages →
  extract_pages pages [] = inr t →
  strip t ≠ [] →
  fs (env s) !! d = None →
  fs (env s) !! base ≠ Some Dir →
  tts_synth t lang = inr b →
  synthesize t vid lang d inner
    = (inr (FileResponse base "audio/wav" "converted_audio.wav"),
       State (reference_audios s) written)
  ∧ convert_pdf pdf vid lang s
    = (inr (FileResponse base "audio/wav" "converted_audio.wav"),
       State (reference_audios s) (rmtree d written)).
Proof.
  intros d base inner written Hv Hpdf Htext Hstrip Hd Hbase Htts.
  assert (synthesize t vid lang d inner
          = (inr (FileResponse base "audio/wav" "converted_audio.wav"),
             State (reference_audios s) written)) as Hsyn.
  { unfold synthesize. fold base. subst inner.
    astep. rewrite (tts_run t base lang b);
      [|by cbn [fs]; rewrite lookup_insert_ne by apply path_join_ne|done].
    astep. unfold get_state. cbn [reference_audios env fs entropy calls].
    by rewrite Hv. }
  split; [done|].
  unfold convert_pdf, convert_pdf_try, try_except.
  unfold mbind at 1, M_bind at 1, lift_result at 1. rewrite Hpdf.
  unfold mbind at 1, M_bind at 1, lift_result at 1. rewrite Htext.
  destruct (strip t) eqn:Hs; [done|]. cbn [text_truthy negb].
  unfold with_TemporaryDirectory.
  unfold mbind at 1, M_bind at 1, in_world at 1, mkdtemp.
  cbn [draw fs entropy calls]. fold d. rewrite Hd. unfold set_fs, draw.
  cbn [fs entropy calls env reference_audios]. fold inner. by rewrite Hsyn.
Qed.
End ConvertClaims2.

Section ConvertTheorems.
Context {L : Library}.
Implicit Types (s : state) (w : world) (r : request).

(** C3. A PDF whose extracted text (every page's text followed by a
    newline) strips to the empty string is rejected: the response is an
    error, no file is returned, and nothing else happens. *)
Theorem blank_pdf_is_rejected pdf vid lang s pages t :
  PdfReader pdf = inr pages →
  extract_pages pages [] = inr t →
  strip t = [] →
  step (ConvertPdf pdf vid lang) s
  = (ErrorResponse 500
       ("Error converting PDF: "
        +:+ str_http 400 "No text could be extracted from PDF"), s).
Proof.
  intros Hpdf Htext Hblank.
  unfold step, serve. simpl.
  unfold convert_pdf, convert_pdf_try, try_except, mbind, M_bind, lift_result.
  by rewrite Hpdf, Htext, Hblank.
Qed.

(** C4. With a voice identifier that is not registered (or none),
    [convert_pdf] does exactly what it does without one and makes no
    conversion; when every step succeeds, the file it answers with is
    [base_audio.wav], which inside the [with] block holds the output of
    the TTS step.  That the response is this audio fails on the code:
    the [with] block has removed the file when the response is sent, so
    the client gets a bare 500, on this path and on every other. *)
Theorem unknown_voice_uses_default pdf vid lang s :
  match vid with
  | Some v => v ∉ dict_keys (reference_audios s)
  | None => True
  end →
  let d := gettempdir +:+ "/tmp" +:+ tmp_name (entropy (env s)) in
  let base := path_join d "base_audio.wav" in
  let inner := State (reference_audios s)
                 (World (<[d := Dir]> (fs (env s))) (S (entropy (env s)))
                    (calls (env s))) in
  let out := step (ConvertPdf pdf vid lang) s in
  out = step (ConvertPdf pdf None lang) s
  ∧ no_conversion (env s) (env out.2)
  ∧ failed (answer (ConvertPdf pdf vid lang) s) = true
  ∧ ∀ pages t b,
      PdfReader pdf = inr pages →
      extract_pages pages [] = inr t →
      strip t ≠ [] →
      fs (env s) !! d = None →
      fs (env s) !! base ≠ Some Dir →
      tts_synth t lang = inr b →
      synthesize t vid lang d inner
        = (inr (FileResponse base "audio/wav" "converted_audio.wav"),
           State (reference_audios s)
             (World (<[base := File b]> (<[d := Dir]> (fs (env s))))
                (S (entropy (env s))) (calls (env s) ++ [CallTTS base lang])%list))
      ∧ out.1 = FileResponse base "audio/wav" "converted_audio.wav"
      ∧ calls (env out.2) = (calls (env s) ++ [CallTTS base lang])%list
      ∧ fs (env out.2) !! base = None
      ∧ answer (ConvertPdf pdf vid lang) s = Failure 500 "Internal Server Error".
Proof.
  intros Hv%chosen_voice_unknown d base inner out. subst out.
  split_and!.
  - unfold step, serve. simpl. by rewrite (convert_pdf_default _ _ _ _ Hv).
  - rewrite step_state. cbn [handler]. rewrite (convert_pdf_default _ _ _ _ Hv).
    apply (convert_pdf_no_voice_calls pdf lang s).
  - apply convert_pdf_never_delivers.
  - intros pages t b Hpdf Htext Hstrip Hd Hbase Htts.
    destruct (convert_pdf_default_run pdf vid lang s pages t b) as [Hsyn Hrun];
      try done.
    fold d base inner in Hsyn, Hrun.
    assert (step (ConvertPdf pdf vid lang) s
            = (FileResponse base "audio/wav" "converted_audio.wav",
               (convert_pdf pdf vid lang s).2)) as Hstep.
    { unfold step, serve. cbn [handler]. by rewrite Hrun. }
    split_and!; [done|by rewrite Hstep|by rewrite Hstep, Hrun| |].
    + apply (converted_file_is_gone pdf vid lang s base "audio/wav"
               "converted_audio.wav"). by rewrite Hstep.
    + apply (file_response_not_sent pdf vid lang s base "audio/wav"
               "converted_audio.wav"). by rewrite Hstep.
Qed.

(** C8. For the same PDF, language and world, two registries that both
    lack the requested voice (or a request without one) give the same
    response and leave the same world. *)
Theorem default_voice_ignores_registry pdf vid lang (d1 d2 : dict voice_record) w :
  match vid with
  | Some v => (v ∉ dict_keys d1) ∧ (v ∉ dict_keys d2)
  | None => True
  end →
  (step (ConvertPdf pdf vid lang) (State d1 w)).1
    = (step (ConvertPdf pdf vid lang) (State d2 w)).1
  ∧ env (step (ConvertPdf pdf vid lang) (State d1 w)).2
    = env (step (ConvertPdf pdf vid lang) (State d2 w)).2.
Proof.
  intros Hv.
  assert (chosen_voice vid d1 = None ∧ chosen_voice vid d2 = None) as [H1 H2].
  { split; apply chosen_voice_unknown; (destruct vid; [apply Hv|done]). }
  unfold step, serve. simpl.
  rewrite (convert_pdf_default pdf vid lang (State d1 w)) by done.
  rewrite (convert_pdf_default pdf vid lang (State d2 w)) by done.
  destruct (convert_pdf_registry_blind pdf lang d1 d2 w) as [Hr He].
  destruct (convert_pdf pdf None lang (State d1 w)) as [r1 s1].
  destruct (convert_pdf pdf None lang (State d2 w)) as [r2 s2].
  simpl in *. subst r2. by destruct r1 as [[]|].
Qed.

(** C5, as amended.  Seen by the client, a failure raised inside the
    [try] block of [upload_voice_sample] or [convert_pdf] is a 500 whose
    detail is the handler's prefix followed by [str(e)]; [delete_voice] of
    an identifier that is not registered is a 404, and a [delete_voice]
    that fails otherwise has found a directory at the record's path,
    which no reachable state has; [root] and [list_voices] do not fail.
    The one failure left is the file response of [convert_pdf] that
    cannot be sent: a bare 500 without a message. *)
Theorem failures_reported r s :
  failed (answer r s) = true →
  match r with
  | UploadVoiceSample file =>
      ∃ e, (upload_voice_sample_try file s).1 = inl e
           ∧ answer r s
             = Failure 500 ("Error processing voice sample: " +:+ str_exn e)
  | ConvertPdf pdf vid lang =>
      (∃ e, (convert_pdf_try pdf vid lang s).1 = inl e
            ∧ answer r s = Failure 500 ("Error converting PDF: " +:+ str_exn e))
      ∨ (∃ p, (convert_pdf_try pdf vid lang s).1
                = inr (FileResponse p "audio/wav" "converted_audio.wav")
              ∧ fs (env (step r s).2) !! p = None
              ∧ answer r s = Failure 500 "Internal Server Error")
  | DeleteVoice v =>
      (dict_get v (reference_audios s) = None
       ∧ answer r s = Failure 404 "Voice ID not found")
      ∨ (∃ rec, dict_get v (reference_audios s) = Some rec
                ∧ fs (env s) !! audio_path rec = Some Dir
                ∧ ¬ reachable s
                ∧ answer r s = Failure 500 "Internal Server Error")
  | Root | ListVoices => False
  end.
Proof.
  destruct r as [|file|pdf vid lang| |v]; try done.
  - unfold answer, step, serve. cbn [handler].
    pose proof (upload_cases file s) as H. simpl in H.
    unfold upload_voice_sample, try_except in *.
    destruct (upload_voice_sample_try file s) as [[e|resp] s']; simpl; [eauto|].
    by destruct H as [(e & ? & _)|(se & [= ->] & _)].
  - intros _.
    pose proof (convert_pdf_cases pdf vid lang s) as H.
    pose proof (file_response_not_sent pdf vid lang s) as Hsend.
    pose proof (converted_file_is_gone pdf vid lang s) as Hgone.
    unfold answer in *. unfold step, serve in *. cbn [handler] in *.
    unfold convert_pdf, try_except in *.
    destruct (convert_pdf_try pdf vid lang s) as [[e|resp] s']; simpl in *.
    + left. eauto.
    + destruct H as [[e ?]|[p [= ->]]]; [done|]. right. exists p.
      split_and!; [done|by eapply Hgone|by eapply Hsend].
  - intros Hf. pose proof (delete_cases v s) as H.
    unfold answer in *. unfold step, serve in *. cbn [handler] in *.
    destruct (delete_voice v s) as [res s'].
    destruct (dict_get v (reference_audios s)) as [rec|] eqn:Hv.
    + destruct H as [(Hdir & -> & ->)|(_ & -> & _)]; [|done].
      right. exists rec. split_and!; try done.
      intros Hs. by destruct (reachable_registry_ok s Hs v rec Hv) as [_ ?].
    + destruct H as [-> ->]. by left.
Qed.
End ConvertTheorems.

Lemma blank_pdf_is_rejected_witness :
  @step demo (ConvertPdf [Byte.x20; Byte.x09] (Some "voice-0") "english") (start empty_world)
  = (ErrorResponse 500
       "Error converting PDF: 400: No text could be extracted from PDF",
     start empty_world).
Proof.
  apply (@blank_pdf_is_rejected demo _ _ _ _ [[32%N]; [9%N]] [32%N; 10%N; 9%N; 10%N]);
    reflexivity.
Defined.

Lemma unknown_voice_uses_default_witness :
  @synthesize demo [65%N; 10%N] (Some "voice-9") "english" "/tmp/tmp0"
    (State [] (World {["/tmp/tmp0" := Dir]} 1 []))
  = (inr (FileResponse "/tmp/tmp0/base_audio.wav" "audio/wav" "converted_audio.wav"),
     State []
       (World (<["/tmp/tmp0/base_audio.wav" := File [Byte.x61; Byte.x61]]>
                 (<["/tmp/tmp0" := Dir]> ∅))
          1 [CallTTS "/tmp/tmp0/base_audio.wav" "english"]))
  ∧ @answer demo (ConvertPdf [Byte.x41] (Some "voice-9") "english") (start empty_world)
    = Failure 500 "Internal Server Error".
Proof.
  pose proof (proj2 (proj2 (proj2
    (@unknown_voice_uses_default demo [Byte.x41] (Some "voice-9") "english"
       (start empty_world) (not_elem_of_nil _)))) [[65%N]] [65%N; 10%N]
       [Byte.x61; Byte.x61]) as H.
  destruct H as (Hsyn & _ & _ & _ & Hans);
    [reflexivity|reflexivity|discriminate
    |vm_compute; reflexivity|vm_compute; discriminate|reflexivity|].
  split; [exact Hsyn|exact Hans].
Defined.

Lemma default_voice_ignores_registry_witness :
  (@step demo (ConvertPdf [Byte.x41] (Some "voice-9") "english")
     (State [] empty_world)).1
  = (@step demo (ConvertPdf [Byte.x41] (Some "voice-9") "english")
       (State [("voice-0", VoiceRecord ([Byte.x01] : @SE demo) "processed_voice-0.wav")]
          empty_world)).1.
Proof.
  apply (@default_voice_ignores_registry demo).
  split; apply (bool_decide_unpack _); vm_compute; reflexivity.
Defined.

Lemma failures_reported_witness :
  (∃ e, (@convert_pdf_try demo [] None "english" (start empty_world)).1 = inl e
        ∧ @answer demo (ConvertPdf [] None "english") (start empty_world)
          = Failure 500 ("Error converting PDF: " +:+ @str_exn demo e))
  ∨ (∃ p, (@convert_pdf_try demo [] None "english" (start empty_world)).1
            = inr (FileResponse p "audio/wav" "converted_audio.wav")
          ∧ fs (env (@step demo (ConvertPdf [] None "english") (start empty_world)).2)
              !! p = None
          ∧ @answer demo (ConvertPdf [] None "english") (start empty_world)
            = Failure 500 "Internal Server Error").
Proof.
  apply (@failures_reported demo (ConvertPdf [] None "english") (start empty_world)).
  vm_compute. reflexivity.
Defined.

(** C5, as stated, fails: an unknown identifier makes [delete_voice] answer
    404, not 500. *)
Lemma unknown_voice_is_a_404 :
  is_error (@step demo (DeleteVoice "nobody") (start empty_world)).1 = true
  ∧ (@step demo (DeleteVoice "nobody") (start empty_world)).1
    = ErrorResponse 404 "Voice ID not found"
  ∧ ∀ d, (@step demo (DeleteVoice "nobody") (start empty_world)).1
         ≠ ErrorResponse 500 d.
Proof. split_and!; [reflexivity..|]. intros d. vm_compute. discriminate. Qed.

(** ** The two ways the clean-up goes wrong *)

Section CleanUp.
Context {L : Library}.
Implicit Types (s : state) (w : world).

(** When the uploaded bytes do not decode, the handler answers 500 and the
    temporary file stays where it was written. *)
Lemma failed_decode_leaves_temp_file file s e :
  let tmp := gettempdir +:+ "/tmp" +:+ tmp_name (S (entropy (env s))) +:+ ".wav" in
  fs (env s) !! tmp = None →
  from_file file = inl e →
  (step (UploadVoiceSample file) s).1
    = ErrorResponse 500 ("Error processing voice sample: " +:+ str_exn e)
  ∧ fs (env (step (UploadVoiceSample file) s).2) !! tmp = Some (File file).
Proof.
  intros tmp Htmp Hdec.
  assert (upload_voice_sample file s
          = (inl (HTTPException 500 ("Error processing voice sample: " +:+ str_exn e)),
             State (reference_audios s)
               (World (<[tmp := File file]> (fs (env s)))
                  (S (S (entropy (env s)))) (calls (env s))))) as E.
  { unfold upload_voice_sample, upload_voice_sample_try, try_except.
    unfold mbind at 1, M_bind at 1, in_world at 1, random_uuid.
    cbn [env reference_audios].
    unfold mbind at 1, M_bind at 1, in_world at 1. cbn [env reference_audios].
    rewrite new_temp_file_run by done. cbn [draw entropy fs calls]. fold tmp.
    unfold mbind at 1, M_bind at 1, in_world at 1. cbn [env reference_audios].
    unfold AudioSegment_from_file, mbind, M_bind, read_file, lift_result.
    cbn [fs]. by rewrite lookup_insert_eq, Hdec. }
  unfold step, serve. simpl. rewrite E. simpl.
  split; [done|]. apply lookup_insert_eq.
Qed.
End CleanUp.

(** C7 fails on the code.  An upload that cannot be decoded answers 500 and
    leaves its temporary file behind; a conversion answers with a file
    that its own clean-up has already removed. *)
Theorem temporary_files_not_cleaned_up :
  (let out := @step demo (UploadVoiceSample []) (start empty_world) in
   out.1 = ErrorResponse 500 "Error processing voice sample: Decoding failed"
   ∧ fs (env out.2) !! "/tmp/tmp1.wav" = Some (File []))
  ∧ (let out := @step demo (ConvertPdf [Byte.x41] None "english") (start empty_world) in
     out.1 = FileResponse "/tmp/tmp0/base_audio.wav" "audio/wav" "converted_audio.wav"
     ∧ fs (env out.2) !! "/tmp/tmp0/base_audio.wav" = None).
Proof. vm_compute. done. Qed.

(** * The claim about app1.py *)


Ltac dstep :=
  unfold mbind at 1, M_bind at 1; try unfold Dashboard.in_world at 1;
  cbn [Dashboard.env Dashboard.voice_samples Dashboard.shown].

Section DashboardClaims.
Context {L : Library}.
Implicit Types (s : Dashboard.session).

(** C10. Saving a voice sample under a name that is already in
    [voice_samples], when the sample can be processed (the temporary
    name is free, the audio decodes, exports and yields an embedding),
    shows the success message and no error, stores the new embedding and
    processed path under that name, and adds the processed file without
    deleting any other: the old record's file is still there. *)
Theorem resave_replaces_record content name s old a b se :
  let v := uuid4 (entropy (Dashboard.env s)) in
  let tmp := gettempdir +:+ "/tmp"
             +:+ tmp_name (S (entropy (Dashboard.env s))) +:+ ".wav" in
  let p := "processed_" +:+ v +:+ ".wav" in
  let s' := (Dashboard.manage_voice_samples (Some content) name true s).2 in
  str_truthy name = true →
  dict_get name (Dashboard.voice_samples s) = Some old →
  fs (Dashboard.env s) !! tmp = None →
  from_file content = inr a →
  export_wav (set_frame_rate 24000 (set_channels 1 a)) = inr b →
  se_get_se b = inr se →
  fs (Dashboard.env s) !! p ≠ Some Dir →
  Dashboard.voice_samples s'
    = dict_set name (VoiceRecord se p) (Dashboard.voice_samples s)
  ∧ dict_get name (Dashboard.voice_samples s') = Some (VoiceRecord se p)
  ∧ Dashboard.shown s'
    = (Dashboard.shown s
       ++ [Dashboard.Success ("Voice sample '" +:+ name +:+ "' saved successfully!")])%list
  ∧ fs (Dashboard.env s') = <[p := File b]> (fs (Dashboard.env s))
  ∧ (is_Some (fs (Dashboard.env s) !! audio_path old) →
     is_Some (fs (Dashboard.env s') !! audio_path old)).
Proof.
  intros v tmp p s' Hname Hold Htmp Hdec Hexp Hse Hdir.
  assert (tmp ≠ p) as Hne by apply tmp_path_not_processed.
  assert (s' = Dashboard.Session
                 (dict_set name (VoiceRecord se p) (Dashboard.voice_samples s))
                 (World (<[p := File b]> (fs (Dashboard.env s)))
                    (S (S (entropy (Dashboard.env s))))
                    (calls (Dashboard.env s) ++ [CallGetSE p])%list)
                 (Dashboard.shown s ++ [Dashboard.Success
                    ("Voice sample '" +:+ name +:+ "' saved successfully!")])%list) as ->.
  { subst s'. unfold Dashboard.manage_voice_samples. rewrite Hname.
    cbn [andb]. unfold Dashboard.save_voice_sample, try_except.
    dstep. unfold random_uuid. cbn [Dashboard.env]. fold v p.
    dstep. rewrite new_temp_file_run by done. cbn [draw entropy fs calls]. fold tmp.
    dstep. rewrite (from_file_run tmp content a);
      [|by cbn [fs]; rewrite lookup_insert_eq|done].
    dstep. rewrite (export_run _ p b);
      [|by cbn [fs]; rewrite lookup_insert_ne|done].
    unfold set_fs. cbn [fs entropy calls].
    dstep. rewrite (get_se_run p b se);
      [|by cbn [fs]; rewrite lookup_insert_eq|done].
    unfold log. cbn [fs entropy calls].
    dstep. unfold Dashboard.setitem, modify.
    cbn [Dashboard.env Dashboard.voice_samples Dashboard.shown].
    dstep. rewrite os_unlink_file;
      [|by cbn [fs]; rewrite lookup_insert_ne, lookup_insert_eq].
    unfold set_fs, Dashboard.show, modify. cbn [fs entropy calls snd].
    do 2 f_equal. f_equal.
    rewrite delete_insert_ne, delete_insert_eq by done.
    by rewrite delete_id. }
  cbn [Dashboard.voice_samples Dashboard.env Dashboard.shown fs].
  split_and!; [done|apply dict_get_set_eq|done|done|].
  intros [n Hn]. rewrite lookup_insert. case_decide; eauto.
Qed.
End DashboardClaims.

Lemma resave_replaces_record_witness :
  dict_get "alice"
    (Dashboard.voice_samples
       (@Dashboard.manage_voice_samples demo (Some [Byte.x02]) "alice" true
          (Dashboard.Session
             [("alice", VoiceRecord ([Byte.x01] : @SE demo) "processed_voice-0.wav")]
             (World {["processed_voice-0.wav" := File [Byte.x01]]} 2 []) [])).2)
  = Some (VoiceRecord ([Byte.x02] : @SE demo) "processed_voice-2.wav").
Proof.
  apply (@resave_replaces_record demo [Byte.x02] "alice"
           (Dashboard.Session
              [("alice", VoiceRecord ([Byte.x01] : @SE demo) "processed_voice-0.wav")]
              (World {["processed_voice-0.wav" := File [Byte.x01]]} 2 []) [])
           (VoiceRecord ([Byte.x01] : @SE demo) "processed_voice-0.wav")
           [Byte.x02] [Byte.x02] [Byte.x02]);
    try reflexivity.
  vm_compute. discriminate.
Defined.

(** * Further properties of app.py *)

Section MoreDictFacts.
Context {V : Type}.
Implicit Types (k : string) (v : V) (d : dict V).

Lemma dict_keys_set_new k v d :
  k ∉ dict_keys d → dict_keys (dict_set k v d) = (dict_keys d ++ [k])%list.
Proof.
  unfold dict_keys. induction d as [|[k' v'] d IH]; simpl; [done|].
  intros [Hne Hk]%not_elem_of_cons.
  rewrite decide_False by done. simpl. f_equal. by apply IH.
Qed.

Lemma dict_keys_set_old k v d :
  k ∈ dict_keys d → dict_keys (dict_set k v d) = dict_keys d.
Proof.
  unfold dict_keys. induction d as [|[k' v'] d IH]; simpl.
  - by intros ?%elem_of_nil.
  - destruct (decide (k' = k)) as [->|Hne]; simpl; [done|].
    intros [?|Hk]%elem_of_cons; [done|]. f_equal. by apply IH.
Qed.

Lemma dict_del_absent k d : k ∉ dict_keys d → dict_del k d = d.
Proof.
  unfold dict_keys. induction d as [|[k' v'] d IH]; simpl; [done|].
  intros [Hne Hk]%not_elem_of_cons.
  rewrite decide_False by done. f_equal. by apply IH.
Qed.

Lemma dict_del_set_new k v d : k ∉ dict_keys d → dict_del k (dict_set k v d) = d.
Proof.
  unfold dict_keys. induction d as [|[k' v'] d IH]; simpl.
  - intros _. by rewrite decide_True.
  - intros [Hne Hk]%not_elem_of_cons.
    rewrite decide_False by done. simpl. rewrite decide_False by done.
    f_equal. by apply IH.
Qed.

Lemma dict_keys_del_filter k d :
  dict_keys (dict_del k d) = filter (λ k', k' ≠ k) (dict_keys d).
Proof.
  unfold dict_keys. induction d as [|[k' v'] d IH]; simpl; [done|].
  destruct (decide (k' = k)) as [->|Hne].
  - by rewrite filter_cons_False by (by intros ?).
  - rewrite filter_cons_True by done. simpl. f_equal. apply IH.
Qed.

Lemma dict_set_NoDup k v d : NoDup (dict_keys d) → NoDup (dict_keys (dict_set k v d)).
Proof.
  intros Hd. destruct (decide (k ∈ dict_keys d)) as [Hk|Hk].
  - by rewrite dict_keys_set_old.
  - rewrite dict_keys_set_new by done. apply NoDup_app. split_and!; [done| |].
    + intros x Hx ?%list_elem_of_singleton. by subst.
    + apply NoDup_singleton.
Qed.

Lemma dict_del_NoDup k d : NoDup (dict_keys d) → NoDup (dict_keys (dict_del k d)).
Proof. intros Hd. rewrite dict_keys_del_filter. by apply NoDup_filter. Qed.
End MoreDictFacts.

Section UploadRuns.
Context {L : Library}.
Implicit Types (s : state) (w : world) (r : request).

(** An upload whose every step succeeds, run to its end. *)
Lemma upload_run file s a b se :
  let v := uuid4 (entropy (env s)) in
  let tmp := gettempdir +:+ "/tmp" +:+ tmp_name (S (entropy (env s))) +:+ ".wav" in
  let p := "processed_" +:+ v +:+ ".wav" in
  fs (env s) !! tmp = None →
  from_file file = inr a →
  export_wav (set_frame_rate 24000 (set_channels 1 a)) = inr b →
  se_get_se b = inr se →
  fs (env s) !! p ≠ Some Dir →
  step (UploadVoiceSample file) s
  = (JSONResponse [("voice_id", JString v);
                   ("message", JString "Voice sample uploaded successfully")],
     State (dict_set v (VoiceRecord se p) (reference_audios s))
       (World (<[p := File b]> (fs (env s))) (S (S (entropy (env s))))
          (calls (env s) ++ [CallGetSE p])%list)).
Proof.
  intros v tmp p Htmp Hdec Hexp Hse Hdir.
  assert (tmp ≠ p) as Hne by apply tmp_path_not_processed.
  unfold step, serve. simpl.
  unfold upload_voice_sample, upload_voice_sample_try, try_except.
  astep. unfold random_uuid. cbn [env]. fold v p.
  astep. rewrite new_temp_file_run by done. cbn [draw entropy fs calls]. fold tmp.
  astep. rewrite (from_file_run tmp file a);
    [|by cbn [fs]; rewrite lookup_insert_eq|done].
  astep. rewrite (export_run _ p b);
    [|by cbn [fs]; rewrite lookup_insert_ne|done].
  unfold set_fs. cbn [fs entropy calls].
  astep. rewrite (get_se_run p b se);
    [|by cbn [fs]; rewrite lookup_insert_eq|done].
  unfold log. cbn [fs entropy calls].
  astep. unfold setitem, modify. cbn [env reference_audios].
  astep. rewrite os_unlink_file;
    [|by cbn [fs]; rewrite lookup_insert_ne, lookup_insert_eq].
  unfold set_fs. cbn [fs entropy calls mret M_ret].
  do 3 f_equal.
  rewrite delete_insert_ne, delete_insert_eq by done.
  by rewrite delete_id.
Qed.

(** X1. An upload whose temporary name is free and whose sample decodes,
    exports and yields an embedding answers with the drawn identifier,
    stores the embedding of the processed file under it, leaves the
    processed file on disk and no temporary file. *)
Theorem upload_success_run file s a b se :
  let v := uuid4 (entropy (env s)) in
  let tmp := gettempdir +:+ "/tmp" +:+ tmp_name (S (entropy (env s))) +:+ ".wav" in
  let p := "processed_" +:+ v +:+ ".wav" in
  fs (env s) !! tmp = None →
  from_file file = inr a →
  export_wav (set_frame_rate 24000 (set_channels 1 a)) = inr b →
  se_get_se b = inr se →
  fs (env s) !! p ≠ Some Dir →
  step (UploadVoiceSample file) s
  = (JSONResponse [("voice_id", JString v);
                   ("message", JString "Voice sample uploaded successfully")],
     State (dict_set v (VoiceRecord se p) (reference_audios s))
       (World (<[p := File b]> (fs (env s))) (S (S (entropy (env s))))
          (calls (env s) ++ [CallGetSE p])%list)).
Proof. apply upload_run. Qed.

(** Deleting an identifier that is not registered answers 404 and changes
    nothing. *)
Lemma delete_unknown_run v s :
  dict_get v (reference_audios s) = None →
  step (DeleteVoice v) s = (ErrorResponse 404 "Voice ID not found", s).
Proof.
  intros Hv. pose proof (delete_cases v s) as H. rewrite Hv in H.
  unfold step, serve. simpl.
  destruct (delete_voice v s) as [res s']. by destruct H as [-> ->].
Qed.

(** X2. Upload, then delete the returned identifier: when the identifier
    and its processed file are new, the registry and the files are back to
    what they were before the upload. *)
Theorem upload_then_delete_restores file s a b se :
  let v := uuid4 (entropy (env s)) in
  let tmp := gettempdir +:+ "/tmp" +:+ tmp_name (S (entropy (env s))) +:+ ".wav" in
  let p := "processed_" +:+ v +:+ ".wav" in
  let s' := (step (DeleteVoice v) (step (UploadVoiceSample file) s).2).2 in
  fs (env s) !! tmp = None →
  from_file file = inr a →
  export_wav (set_frame_rate 24000 (set_channels 1 a)) = inr b →
  se_get_se b = inr se →
  v ∉ dict_keys (reference_audios s) →
  fs (env s) !! p = None →
  reference_audios s' = reference_audios s ∧ fs (env s') = fs (env s).
Proof.
  intros v tmp p s' Htmp Hdec Hexp Hse Hv Hp. subst s'.
  rewrite (upload_run file s a b se);
    [|done|done|done|done|by fold v p; rewrite Hp].
  fold v p. cbn [snd].
  match goal with |- context [step _ ?st] => set (s1 := st) end.
  pose proof (delete_cases v s1) as H.
  unfold step, serve. simpl.
  destruct (delete_voice v s1) as [res s2].
  subst s1. cbn [reference_audios env fs] in H.
  rewrite dict_get_set_eq in H. cbn [audio_path] in H.
  rewrite lookup_insert_eq in H.
  destruct H as [(? & _)|(_ & -> & E1 & E2)]; [done|]. simpl.
  rewrite E1, E2, dict_del_set_new, delete_insert_eq by done.
  by rewrite delete_id.
Qed.

(** X3. Deleting the same identifier a second time answers 404 and changes
    nothing. *)
Theorem delete_twice v s :
  is_error (step (DeleteVoice v) s).1 = false →
  step (DeleteVoice v) (step (DeleteVoice v) s).2
  = (ErrorResponse 404 "Voice ID not found", (step (DeleteVoice v) s).2).
Proof.
  intros Hok. apply delete_unknown_run.
  pose proof (delete_cases v s) as H. unfold step, serve in *. simpl in *.
  destruct (delete_voice v s) as [res s'].
  destruct (dict_get v (reference_audios s)) as [rec|].
  - destruct H as [(_ & -> & _)|(_ & -> & E & _)]; [done|]. simpl.
    rewrite E. apply dict_get_del_eq.
  - by destruct H as [-> _].
Qed.
End UploadRuns.

Lemma upload_success_run_witness :
  @step demo (UploadVoiceSample [Byte.x01]) (start empty_world)
  = (JSONResponse [("voice_id", JString "voice-0");
                   ("message", JString "Voice sample uploaded successfully")],
     State [("voice-0", VoiceRecord ([Byte.x01] : @SE demo) "processed_voice-0.wav")]
       (World (<["processed_voice-0.wav" := File [Byte.x01]]> ∅) 2
          [CallGetSE "processed_voice-0.wav"])).
Proof.
  apply (@upload_success_run demo [Byte.x01] (start empty_world)
           [Byte.x01] [Byte.x01] [Byte.x01]); try reflexivity.
  vm_compute. discriminate.
Defined.

Lemma upload_then_delete_restores_witness :
  reference_audios
    (@step demo (DeleteVoice "voice-0")
       (step (UploadVoiceSample [Byte.x01]) (start empty_world)).2).2 = []
  ∧ fs (env (@step demo (DeleteVoice "voice-0")
               (step (UploadVoiceSample [Byte.x01]) (start empty_world)).2).2) = ∅.
Proof.
  apply (@upload_then_delete_restores demo [Byte.x01] (start empty_world)
           [Byte.x01] [Byte.x01] [Byte.x01]); try reflexivity.
  apply not_elem_of_nil.
Defined.

Lemma delete_twice_witness :
  @step demo (DeleteVoice "voice-0")
    (step (DeleteVoice "voice-0")
       (step (UploadVoiceSample [Byte.x01]) (start empty_world)).2).2
  = (ErrorResponse 404 "Voice ID not found",
     (@step demo (DeleteVoice "voice-0")
        (step (UploadVoiceSample [Byte.x01]) (start empty_world)).2).2).
Proof.
  apply (@delete_twice demo). vm_compute. reflexivity.
Defined.

Section Listings.
Context {L : Library}.
Implicit Types (s : state) (w : world) (r : request).

(** A successful upload returns the identifier it drew and stores a record
    under it. *)
Lemma upload_returns_drawn file s v m :
  (step (UploadVoiceSample file) s).1 = JSONResponse [("voice_id", JString v); m] →
  v = uuid4 (entropy (env s))
  ∧ ∃ rec, reference_audios (step (UploadVoiceSample file) s).2
           = dict_set v rec (reference_audios s).
Proof.
  pose proof (upload_cases file s) as H. unfold step, serve. simpl in *.
  destruct (upload_voice_sample file s) as [r s'].
  destruct H as [(e & -> & _)|(se & -> & E & _)]; simpl; [done|].
  intros [= <- _]. eauto.
Qed.

(** X4. [list_voices] keeps the order of upload: after a successful upload
    the new identifier is listed last and the others keep their places (an
    identifier that was already registered keeps its place). *)
Theorem new_voice_is_listed_last file s v m :
  (step (UploadVoiceSample file) s).1 = JSONResponse [("voice_id", JString v); m] →
  listed (step ListVoices (step (UploadVoiceSample file) s).2).1
  = if decide (v ∈ listed (step ListVoices s).1)
    then listed (step ListVoices s).1
    else (listed (step ListVoices s).1 ++ [v])%list.
Proof.
  intros (_ & rec & E)%upload_returns_drawn.
  rewrite !list_voices_listed, E. case_decide.
  - by apply dict_keys_set_old.
  - by apply dict_keys_set_new.
Qed.

Lemma step_NoDup r s :
  NoDup (dict_keys (reference_audios s)) →
  NoDup (dict_keys (reference_audios (step r s).2)).
Proof.
  intros Hs.
  destruct (step_registry r s) as [E|[(file & se & _ & E & _)|(v' & _ & E)]];
    rewrite E; [done|by apply dict_set_NoDup|by apply dict_del_NoDup].
Qed.

(** X5. [list_voices] never names an identifier twice. *)
Theorem listed_voices_are_distinct s :
  reachable s → NoDup (listed (step ListVoices s).1).
Proof.
  rewrite list_voices_listed.
  induction 1 as [w|r s _ IH]; [apply NoDup_nil_2|by apply step_NoDup].
Qed.

Lemma run_entropy rs s : (entropy (env s) ≤ entropy (env (run rs s)))%nat.
Proof.
  revert s. induction rs as [|r rs IH]; intros s; simpl; [done|].
  etrans; [apply (step_entropy r s)|apply IH].
Qed.

(** X6. With [uuid4] identifiers unique, two successful uploads of one run
    never return the same identifier. *)
Theorem uploads_return_distinct_ids file1 file2 (rs : list request) s v1 v2 m1 m2 :
  Inj (=) (=) uuid4 →
  (step (UploadVoiceSample file1) s).1
    = JSONResponse [("voice_id", JString v1); m1] →
  (step (UploadVoiceSample file2) (run rs (step (UploadVoiceSample file1) s).2)).1
    = JSONResponse [("voice_id", JString v2); m2] →
  v1 ≠ v2.
Proof.
  intros Hinj [-> _]%upload_returns_drawn [-> _]%upload_returns_drawn.
  intros Heq%Hinj.
  pose proof (run_entropy rs (step (UploadVoiceSample file1) s).2) as H1.
  pose proof (upload_draws file1 s) as H2.
  change (upload_voice_sample file1 s)
    with (handler (UploadVoiceSample file1) s) in H2.
  rewrite <- step_state in H2. lia.
Qed.
End Listings.

Lemma new_voice_is_listed_last_witness :
  listed (@step demo ListVoices
            (step (UploadVoiceSample [Byte.x02])
               (step (UploadVoiceSample [Byte.x01]) (start empty_world)).2).2).1
  = ["voice-0"; "voice-2"].
Proof.
  exact (@new_voice_is_listed_last demo [Byte.x02]
           (step (UploadVoiceSample [Byte.x01]) (start empty_world)).2
           "voice-2" ("message", JString "Voice sample uploaded successfully")
           eq_refl).
Defined.

Lemma listed_voices_are_distinct_witness :
  NoDup (listed (@step demo ListVoices
                   (step (UploadVoiceSample [Byte.x01]) (start empty_world)).2).1).
Proof.
  apply (@listed_voices_are_distinct demo).
  apply reachable_step, reachable_start.
Defined.

Lemma uploads_return_distinct_ids_witness : "voice-0" ≠ "voice-4".
Proof.
  apply (@uploads_return_distinct_ids demo [Byte.x01] [Byte.x02] [ListVoices; UploadVoiceSample []]
           (start empty_world) "voice-0" "voice-4"
           ("message", JString "Voice sample uploaded successfully")
           ("message", JString "Voice sample uploaded successfully"));
    [apply demo_uuid4_inj|vm_compute; reflexivity..].
Defined.

Global Instance writes_only_inside_preorder d : PreOrder (writes_only_inside d).
Proof.
  split; unfold writes_only_inside; [done|].
  intros w1 w2 w3 H1 H2 p Hp. by rewrite H2, H1.
Qed.

Section ConvertFiles.
Context {L : Library}.
Implicit Types (s : state) (w : world) (r : request).

Lemma open_wb_inside d p :
  inside d p = true → preserves (writes_only_inside d) (open_wb p).
Proof.
  intros Hp w q Hq. unfold open_wb.
  destruct (fs w !! p) as [[]|]; simpl; try done;
    rewrite lookup_insert_ne; congruence.
Qed.

Lemma fwrite_inside d p b :
  inside d p = true → preserves (writes_only_inside d) (fwrite p b).
Proof.
  intros Hp w q Hq. simpl. rewrite lookup_insert_ne; congruence.
Qed.

Lemma read_file_inside d p : preserves (writes_only_inside d) (read_file p).
Proof. intros w q Hq. unfold read_file. by destruct (fs w !! p) as [[]|]. Qed.

Lemma log_inside d c : preserves (writes_only_inside d) (modify (log c)).
Proof. by intros w q Hq. Qed.

Lemma synthesize_inside_only t vid lang d :
  preserves (on_env (writes_only_inside d)) (synthesize t vid lang d).
Proof.
  pose proof (inside_path_join d) as Hin.
  pose proof (open_wb_inside d) as H1. pose proof (fwrite_inside d) as H2.
  pose proof (read_file_inside d) as H3. pose proof (log_inside d) as H4.
  unfold synthesize. frames.
Qed.

(** After [convert_pdf] a path holds what it held before, or nothing; the
    second only for the temporary directory and the paths inside it. *)
Lemma convert_pdf_lookup pdf vid lang s p :
  let d := gettempdir +:+ "/tmp" +:+ tmp_name (entropy (env s)) in
  fs (env (step (ConvertPdf pdf vid lang) s).2) !! p = fs (env s) !! p
  ∨ (fs (env (step (ConvertPdf pdf vid lang) s).2) !! p = None
     ∧ ¬ (p ≠ d ∧ inside d p = false)).
Proof.
  intros d. rewrite step_state. simpl.
  unfold convert_pdf, convert_pdf_try, try_except.
  bind_step; [injection E as _ <-; by left|]. injection E as _ <-.
  bind_step; [injection E as _ <-; by left|]. injection E as _ <-.
  destruct (negb _); [by left|].
  unfold with_TemporaryDirectory.
  bind_step; apply in_world_inv in E as (w1 & E & ->); unfold mkdtemp in E;
    fold d in E; destruct (fs (draw (env s)) !! d) eqn:Hd; try done.
  - injection E as _ <-. by left.
  - injection E as <- <-.
    lazymatch goal with
    | |- context [synthesize ?t ?v ?l ?d ?st] =>
        pose proof (synthesize_inside_only t v l d st) as Hin;
        destruct (synthesize t v l d st) as [[e|resp] s3]
    end; unfold on_env, writes_only_inside in Hin;
      cbn [fst snd env fs raise] in *;
      rewrite rmtree_lookup; case_decide as Hp; try (by right);
      left; destruct Hp as [Hp1 Hp2]; rewrite (Hin p Hp2);
      unfold set_fs; cbn [fs draw]; by rewrite lookup_insert_ne.
Qed.

(** X7. [convert_pdf] leaves no file behind and touches none outside its
    temporary directory: afterwards every file is one that was there
    before, unchanged, and every path outside the directory is as it was,
    whether the request succeeds or fails. *)
Theorem convert_pdf_leaves_files pdf vid lang s :
  let d := gettempdir +:+ "/tmp" +:+ tmp_name (entropy (env s)) in
  fs (env (step (ConvertPdf pdf vid lang) s).2) ⊆ fs (env s)
  ∧ ∀ p, p ≠ d → inside d p = false →
         fs (env (step (ConvertPdf pdf vid lang) s).2) !! p = fs (env s) !! p.
Proof.
  intros d. split.
  - apply map_subseteq_spec. intros p x Hx.
    destruct (convert_pdf_lookup pdf vid lang s p) as [<-|[Hn _]]; [done|].
    by rewrite Hn in Hx.
  - intros p Hp1 Hp2.
    destruct (convert_pdf_lookup pdf vid lang s p) as [?|[_ Hn]]; [done|].
    by destruct Hn.
Qed.
End ConvertFiles.

Section Cloning.
Context {L : Library}.
Implicit Types (s : state) (w : world) (r : request).

Lemma chosen_voice_known v (d : dict voice_record) :
  v ≠ "" → v ∈ dict_keys d → chosen_voice (Some v) d = Some v.
Proof.
  intros Hv Hk. simpl. apply dict_contains_keys in Hk. rewrite Hk.
  by destruct v.
Qed.

Lemma get_se_calls p w : calls (get_se p w).2 = (calls w ++ [CallGetSE p])%list.
Proof.
  unfold get_se, mbind, M_bind, modify, read_file, lift_result. simpl.
  destruct (fs w !! p) as [[b|]|]; [|done..]. by destruct (se_get_se b).
Qed.

Lemma convert_calls a src tgt o w :
  calls (convert a src tgt o w).2 = (calls w ++ [CallConvert a o])%list.
Proof.
  unfold convert, mbind, M_bind, modify, read_file, lift_result, open_wb, fwrite.
  simpl. destruct (fs w !! a) as [[b|]|]; [|done..].
  destruct (tone_convert b src tgt); [done|]. simpl.
  by destruct (fs w !! o) as [[]|].
Qed.

Lemma base_not_cloned d : path_join d "base_audio.wav" ≠ path_join d "cloned_audio.wav".
Proof. unfold path_join. by intros ?%(inj (String.app d)). Qed.

Lemma convert_run a src tgt o b cv w :
  fs w !! a = Some (File b) → fs w !! o ≠ Some Dir →
  tone_convert b src tgt = inr cv →
  convert a src tgt o w
  = (inr (), World (<[o := File cv]> (fs w)) (entropy w)
               (calls w ++ [CallConvert a o])%list).
Proof.
  intros Ha Ho Hr.
  unfold convert, mbind, M_bind, modify, read_file, lift_result, open_wb, fwrite.
  unfold log, set_fs. cbn [fs entropy calls]. rewrite Ha, Hr.
  destruct (fs w !! o) as [[]|] eqn:Eo; try done;
    unfold modify; cbn [fs entropy calls]; rewrite ?Eo;
    cbn [fs entropy calls]; by rewrite insert_insert_eq.
Qed.

(** X8. Inside the temporary directory, a request naming a registered
    voice writes the TTS output to [base_audio.wav], takes that file's own
    embedding as the source and the registered embedding as the target,
    and returns [cloned_audio.wav] holding their conversion. *)
Theorem cloned_file_is_the_conversion t v lang d s rec b src cv :
  let base := path_join d "base_audio.wav" in
  let cloned := path_join d "cloned_audio.wav" in
  v ≠ "" →
  dict_get v (reference_audios s) = Some rec →
  tts_synth t lang = inr b →
  se_get_se b = inr src →
  tone_convert b src (embedding rec) = inr cv →
  fs (env s) !! base ≠ Some Dir →
  fs (env s) !! cloned ≠ Some Dir →
  synthesize t (Some v) lang d s
  = (inr (FileResponse cloned "audio/wav" "converted_audio.wav"),
     State (reference_audios s)
       (World (<[cloned := File cv]> (<[base := File b]> (fs (env s))))
          (entropy (env s))
          (calls (env s) ++ [CallTTS base lang; CallGetSE base;
                             CallConvert base cloned])%list)).
Proof.
  intros base cloned Hv Hrec Htts Hsrc Hconv Hbase Hcloned.
  pose proof (base_not_cloned d) as Hne. fold base cloned in Hne.
  unfold synthesize. fold base cloned.
  astep. rewrite (tts_run t base lang b) by done.
  astep. unfold get_state. cbn [reference_audios env].
  rewrite chosen_voice_known;
    [|done|by apply elem_of_dict_keys; rewrite Hrec].
  astep. unfold getitem. cbn [reference_audios env]. rewrite Hrec.
  astep. rewrite (get_se_run base b src);
    [|by cbn [fs]; rewrite lookup_insert_eq|done].
  unfold log. cbn [fs entropy calls].
  astep. rewrite (convert_run base src (embedding rec) cloned b cv);
    [|by cbn [fs]; rewrite lookup_insert_eq
     |by cbn [fs]; rewrite lookup_insert_ne|done].
  cbn [fs entropy calls mret M_ret]. by rewrite <- !(assoc_L (++)).
Qed.

(** What [convert_pdf] does with a registered voice. *)
Lemma convert_pdf_known_voice_cases pdf v lang s :
  let d := gettempdir +:+ "/tmp" +:+ tmp_name (entropy (env s)) in
  let base := path_join d "base_audio.wav" in
  let cloned := path_join d "cloned_audio.wav" in
  v ≠ "" → v ∈ dict_keys (reference_audios s) →
  (∃ e, (convert_pdf pdf (Some v) lang s).1 = inl e)
  ∨ ((convert_pdf pdf (Some v) lang s).1
       = inr (FileResponse cloned "audio/wav" "converted_audio.wav")
     ∧ calls (env (convert_pdf pdf (Some v) lang s).2)
       = (calls (env s) ++ [CallTTS base lang; CallGetSE base;
                            CallConvert base cloned])%list).
Proof.
  intros d base cloned Hv Hk. unfold convert_pdf, convert_pdf_try, try_except.
  bind_step; [left; eauto|]. injection E as _ <-.
  bind_step; [left; eauto|]. injection E as _ <-.
  destruct (negb _); [left; eauto|].
  unfold with_TemporaryDirectory.
  bind_step; apply in_world_inv in E as (w1 & E & ->); [left; eauto|].
  unfold mkdtemp in E. destruct (fs (draw (env s)) !! _); [done|].
  injection E as <- <-. fold d.
  unfold synthesize. fold base cloned.
  bind_step; apply in_world_inv in E as (w2 & E & ->); [left; eauto|].
  apply (f_equal snd) in E. cbn [snd] in E.
  apply (f_equal calls) in E. rewrite tts_calls in E. cbn [calls set_fs draw] in E.
  bind_step; [done|]. injection E0 as <- <-. cbn [reference_audios].
  rewrite chosen_voice_known by done.
  bind_step; [left; eauto|].
  unfold getitem in E0. cbn [reference_audios] in E0.
  destruct (dict_get v (reference_audios s)); [|done]. injection E0 as _ <-.
  bind_step; apply in_world_inv in E0 as (w3 & E0 & ->); [left; eauto|].
  apply (f_equal snd) in E0. cbn [snd env] in E0.
  apply (f_equal calls) in E0. rewrite get_se_calls in E0.
  bind_step; apply in_world_inv in E1 as (w4 & E1 & ->); [left; eauto|].
  apply (f_equal snd) in E1. cbn [snd env] in E1.
  apply (f_equal calls) in E1. rewrite convert_calls in E1.
  right. simpl. split; [done|].
  rewrite <- E1, <- E0, <- E. by rewrite <- !(assoc_L (++)).
Qed.

(** X9. A [convert_pdf] request that names a registered voice and does not
    fail answers with [cloned_audio.wav] after exactly three model calls,
    in this order: TTS, embedding of the TTS output, conversion. *)
Theorem known_voice_is_cloned pdf v lang s :
  let d := gettempdir +:+ "/tmp" +:+ tmp_name (entropy (env s)) in
  let base := path_join d "base_audio.wav" in
  let cloned := path_join d "cloned_audio.wav" in
  let out := step (ConvertPdf pdf (Some v) lang) s in
  v ≠ "" →
  v ∈ dict_keys (reference_audios s) →
  is_error out.1 = false →
  out.1 = FileResponse cloned "audio/wav" "converted_audio.wav"
  ∧ calls (env out.2)
    = (calls (env s) ++ [CallTTS base lang; CallGetSE base;
                         CallConvert base cloned])%list.
Proof.
  intros d base cloned out Hv Hk. subst out.
  pose proof (convert_pdf_known_voice_cases pdf v lang s Hv Hk) as H.
  fold d base cloned in H. unfold step, serve. simpl.
  destruct (convert_pdf pdf (Some v) lang s) as [res s']. simpl in *.
  destruct H as [[e ->]|[-> ?]]; [by destruct e|done].
Qed.
End Cloning.

Lemma cloned_file_is_the_conversion_witness :
  (@synthesize demo [65%N; 10%N] (Some "voice-0") "english" "/tmp/tmp2"
     (step (UploadVoiceSample [Byte.x01]) (start empty_world)).2).1
  = inr (FileResponse "/tmp/tmp2/cloned_audio.wav" "audio/wav" "converted_audio.wav").
Proof.
  refine (f_equal fst
    (@cloned_file_is_the_conversion demo [65%N; 10%N] "voice-0" "english" "/tmp/tmp2"
       (step (UploadVoiceSample [Byte.x01]) (start empty_world)).2
       (VoiceRecord ([Byte.x01] : @SE demo) "processed_voice-0.wav")
       [Byte.x61; Byte.x61] [Byte.x61; Byte.x61] [Byte.x61; Byte.x61; Byte.x01]
       _ _ _ _ _ _ _)); try reflexivity; try discriminate;
    vm_compute; discriminate.
Defined.

Lemma known_voice_is_cloned_witness :
  (@step demo (ConvertPdf [Byte.x41] (Some "voice-0") "english")
     (step (UploadVoiceSample [Byte.x01]) (start empty_world)).2).1
  = FileResponse "/tmp/tmp2/cloned_audio.wav" "audio/wav" "converted_audio.wav".
Proof.
  refine (proj1
    (@known_voice_is_cloned demo [Byte.x41] "voice-0" "english"
       (step (UploadVoiceSample [Byte.x01]) (start empty_world)).2 _ _ _)).
  - discriminate.
  - apply (bool_decide_unpack _). vm_compute. reflexivity.
  - vm_compute. reflexivity.
Defined.

Lemma string_length_app (s t : string) :
  String.length (s +:+ t) = (String.length s + String.length t)%nat.
Proof. induction s as [|a s IH]; simpl; [done|]. by rewrite IH. Qed.

Lemma string_app_inj_r (s1 s2 t : string) : s1 +:+ t = s2 +:+ t → s1 = s2.
Proof.
  revert s2. induction s1 as [|a s1 IH]; intros [|a' s2] H; simpl in *.
  - done.
  - apply (f_equal String.length) in H.
    rewrite ?string_length_app in H. simpl in H.
    rewrite ?string_length_app in H. lia.
  - apply (f_equal String.length) in H.
    rewrite ?string_length_app in H. simpl in H.
    rewrite ?string_length_app in H. lia.
  - injection H as -> H. f_equal. by apply IH.
Qed.

Lemma processed_inj (k k' : string) :
  "processed_" +:+ k +:+ ".wav" = "processed_" +:+ k' +:+ ".wav" → k = k'.
Proof. intros H%(inj (String.app "processed_")). by apply string_app_inj_r in H. Qed.

Lemma processed_outside_tmp (x k : string) :
  "processed_" +:+ k +:+ ".wav" ≠ gettempdir +:+ "/tmp" +:+ x
  ∧ inside (gettempdir +:+ "/tmp" +:+ x) ("processed_" +:+ k +:+ ".wav") = false.
Proof. split; [by apply not_eq_sym, (tmp_path_not_processed x "" k) || done|done]. Qed.

Section Backing.
Context {L : Library}.
Implicit Types (s : state) (w : world) (r : request).

Lemma NamedTemporaryFile_files sfx : preserves keeps_files (NamedTemporaryFile sfx).
Proof.
  intros w q Hq. unfold NamedTemporaryFile. cbn [draw fs].
  destruct (fs w !! (gettempdir +:+ _)); simpl; [done|].
  rewrite lookup_insert. by case_decide.
Qed.

(** An upload removes no file but its own temporary one. *)
Lemma upload_keeps_other_files file s q :
  q ≠ gettempdir +:+ "/tmp" +:+ tmp_name (S (entropy (env s))) +:+ ".wav" →
  is_file (fs (env s) !! q) →
  is_file (fs (env (upload_voice_sample file s).2) !! q).
Proof.
  intros Hq Hfile. unfold upload_voice_sample, upload_voice_sample_try, try_except.
  bind_step; [done|]. injection E as <- <-.
  pose proof (NamedTemporaryFile_files ".wav") as Hnt.
  bind_step; apply in_world_inv in E as (w1 & E & ->); tidy;
    (apply (run_preserves keeps_files) in E as F1; [|frames]);
    [by apply F1|].
  apply new_temp_file in E as (Ht & _ & _). cbn [draw entropy] in Ht.
  bind_step; apply in_world_inv in E as (w2 & E & ->); tidy;
    (apply (run_preserves keeps_files) in E as F2; [|apply from_file_files]);
    [by apply F2, F1|].
  bind_step; apply in_world_inv in E0 as (w3 & E0 & ->); tidy;
    (apply (run_preserves keeps_files) in E0 as F3; [|apply export_files]);
    [by apply F3, F2, F1|].
  bind_step; apply in_world_inv in E1 as (w4 & E1 & ->); tidy;
    (apply (run_preserves keeps_files) in E1 as F4; [|apply get_se_files]);
    [by apply F4, F3, F2, F1|].
  bind_step; [done|]. injection E2 as <- <-.
  assert (is_file (fs w4 !! q)) as Hq4 by (by apply F4, F3, F2, F1).
  bind_step; apply in_world_inv in E2 as (w5 & E2 & ->); tidy;
    unfold os_unlink in E2; destruct (fs w4 !! a) as [[]|] eqn:Ha;
    simplify_eq; cbn [raise mret M_ret fst snd env]; try done.
  unfold set_fs. cbn [fs]. by rewrite lookup_delete_ne.
Qed.

Lemma step_registry_backed r s : registry_backed s → registry_backed (step r s).2.
Proof.
  intros Hs.
  assert (∀ k, is_file (fs (env s) !! ("processed_" +:+ k +:+ ".wav")) →
               r ≠ DeleteVoice k →
               is_file (fs (env (step r s).2) !! ("processed_" +:+ k +:+ ".wav")))
    as Hkeep.
  { intros k Hk Hr. rewrite step_state.
    destruct r as [|file|pdf vid lang| |v']; simpl; try done.
    - apply upload_keeps_other_files; [|done].
      apply not_eq_sym, tmp_path_not_processed.
    - destruct (processed_outside_tmp (tmp_name (entropy (env s))) k) as [Ho1 Ho2].
      destruct (convert_pdf_lookup pdf vid lang s ("processed_" +:+ k +:+ ".wav"))
        as [H|[_ []]]; [|done].
      rewrite step_state in H. simpl in H. by rewrite H.
    - pose proof (delete_cases v' s) as H.
      destruct (delete_voice v' s) as [res s'].
      destruct (dict_get v' (reference_audios s)) as [rec|] eqn:Hv.
      + destruct H as [(_ & _ & ->)|(_ & _ & _ & E)]; [done|]. simpl.
        rewrite E. destruct (Hs v' rec Hv) as [Hpath _].
        rewrite lookup_delete_ne; [done|]. rewrite Hpath.
        intros ?%processed_inj. congruence.
      + by destruct H as [_ ->]. }
  intros k rec Hk.
  destruct (step_registry r s) as [E|[(file & se & -> & E & Hf)|(v' & -> & E)]];
    rewrite E in Hk.
  - destruct (Hs k rec Hk) as [Hpath Hfile]. split; [done|].
    rewrite Hpath in *. apply Hkeep; [done|].
    intros ->. pose proof (delete_cases k s) as H. rewrite Hk in H.
    rewrite step_state in E. simpl in E.
    destruct (delete_voice k s) as [res s'].
    destruct H as [(Hd & _)|(_ & _ & E' & _)].
    + rewrite Hpath in Hd. by rewrite Hd in Hfile.
    + simpl in E. rewrite E' in E.
      apply (f_equal (dict_get k)) in E. by rewrite dict_get_del_eq, Hk in E.
  - destruct (decide (uuid4 (entropy (env s)) = k)) as [<-|Hne].
    + rewrite dict_get_set_eq in Hk. by injection Hk as <-.
    + rewrite dict_get_set_ne in Hk by done.
      destruct (Hs k rec Hk) as [Hpath Hfile]. split; [done|].
      rewrite Hpath in *. by apply Hkeep.
  - destruct (decide (v' = k)) as [<-|Hne].
    + by rewrite dict_get_del_eq in Hk.
    + rewrite dict_get_del_ne in Hk by done.
      destruct (Hs k rec Hk) as [Hpath Hfile]. split; [done|].
      rewrite Hpath in *. apply Hkeep; [done|congruence].
Qed.

(** X10. In every reachable state each registered voice has its processed
    file on disk: the record of identifier [k] names
    [processed_<k>.wav], and that path is a regular file. *)
Theorem registered_voices_have_files s k rec :
  reachable s →
  dict_get k (reference_audios s) = Some rec →
  audio_path rec = "processed_" +:+ k +:+ ".wav"
  ∧ is_file (fs (env s) !! audio_path rec).
Proof.
  intros Hs. revert k rec.
  induction Hs as [w|r s _ IH]; [done|]. by apply step_registry_backed.
Qed.
End Backing.

Lemma registered_voices_have_files_witness :
  audio_path (VoiceRecord ([Byte.x01] : @SE demo) "processed_voice-0.wav")
    = "processed_" +:+ "voice-0" +:+ ".wav"
  ∧ is_file (fs (env (@step demo (UploadVoiceSample [Byte.x01]) (start empty_world)).2)
             !! audio_path (VoiceRecord ([Byte.x01] : @SE demo) "processed_voice-0.wav")).
Proof.
  apply (@registered_voices_have_files demo).
  - apply reachable_step, reachable_start.
  - vm_compute. reflexivity.
Defined.

(** * Properties of app1.py *)

Global Instance session_kept_preorder {L : Library} {T : Setup} : PreOrder session_kept.
Proof.
  split; unfold session_kept; [done|].
  intros p1 p2 p3 [? ?] [? ?]. split; congruence.
Qed.

Global Instance flags_kept_preorder {L : Library} {T : Setup} : PreOrder flags_kept.
Proof.
  split; unfold flags_kept; [done|].
  intros p1 p2 p3 [? ?] [? ?]. split; congruence.
Qed.

Global Instance writes_only_preorder targets : PreOrder (writes_only targets).
Proof.
  split; unfold writes_only; [done|].
  intros w1 w2 w3 H1 H2 q Hq. by rewrite H2, H1.
Qed.

Global Instance setup_frame_preorder {L : Library} {T : Setup} targets :
  PreOrder (setup_frame targets).
Proof.
  split; unfold setup_frame.
  - intros p. by split_and!.
  - intros p1 p2 p3 (? & ? & ? & ? & ?) (? & ? & ? & ? & ?).
    split_and!; try congruence. by etrans.
Qed.

Section ScriptFrames.
Context {L : Library} {T : Setup}.
Implicit Types (p : Script.page) (w : world).

Lemma script_in_env_inv {A} (m : M world A) p r p' :
  Script.in_env m p = (r, p') →
  ∃ w', m (Dashboard.env (Script.session p)) = (r, w')
        ∧ p' = Script.Page
                 (Dashboard.Session (Dashboard.voice_samples (Script.session p)) w'
                    (Dashboard.shown (Script.session p)))
                 (Script.models_downloaded p) (Script.openvoice_initialized p)
                 (Script.elements p) (Script.downloads p).
Proof.
  unfold Script.in_env, Script.in_session, Dashboard.in_world.
  destruct (m (Dashboard.env (Script.session p))) as [r0 w0].
  intros [= <- <-]. eauto.
Qed.

(** Steps that keep the samples and the world. *)
Lemma emit_session e : preserves session_kept (Script.emit e).
Proof. by intros p. Qed.

Lemma show_session m : preserves session_kept (Script.show m).
Proof. by intros p. Qed.

Lemma read_session q : preserves session_kept (Script.in_env (read_file q)).
Proof.
  intros p. unfold Script.in_env, Script.in_session, Dashboard.in_world, read_file.
  by destruct (fs _ !! q) as [[]|].
Qed.

Lemma set_initialized_session :
  preserves session_kept
    (modify (λ p, Script.Page (Script.session p) (Script.models_downloaded p) true
                    (Script.elements p) (Script.downloads p))).
Proof. by intros p. Qed.

Lemma initialize_session : preserves session_kept Script.initialize_openvoice.
Proof.
  pose proof emit_session. pose proof show_session. pose proof read_session.
  pose proof set_initialized_session.
  unfold Script.initialize_openvoice. frames.
Qed.

(** Steps that keep the flags. *)
Lemma in_session_flags {A} (m : M Dashboard.session A) :
  preserves flags_kept (Script.in_session m).
Proof. intros p. unfold Script.in_session. by destruct (m _). Qed.

Lemma emit_flags e : preserves flags_kept (Script.emit e).
Proof. by intros p. Qed.

Lemma getitem_flags k : preserves flags_kept (Script.getitem k).
Proof. intros p. unfold Script.getitem. by destruct (dict_get _ _). Qed.

Lemma delitem_flags k : preserves flags_kept (Script.delitem k).
Proof. intros p. unfold Script.delitem. by destruct (dict_get _ _). Qed.

Lemma with_tmpdir_flags {A} (body : string → M Script.page A) :
  (∀ d, preserves flags_kept (body d)) →
  preserves flags_kept (Script.with_TemporaryDirectory body).
Proof.
  intros Hb p. unfold Script.with_TemporaryDirectory.
  bind_step; apply script_in_env_inv in E as (w1 & E & ->); [done|].
  lazymatch goal with
  | |- context [body ?d ?st] =>
      specialize (Hb d st); destruct (body d st) as [r p2]
  end. done.
Qed.
End ScriptFrames.

Global Instance file_step_preorder targets : PreOrder (file_step targets).
Proof.
  split; unfold file_step.
  - intros w. by split_and!.
  - intros w1 w2 w3 (? & ? & ?) (? & ? & ?). split_and!; try congruence. by etrans.
Qed.

Section Downloads.
Context {L : Library} {T : Setup}.
Implicit Types (p : Script.page) (w : world).

Lemma open_wb_file_step targets q :
  q ∈ targets → preserves (file_step targets) (open_wb q).
Proof.
  intros Hq w. unfold open_wb, file_step.
  destruct (fs w !! q) as [[]|]; simpl; split_and!; try done;
    intros q' Hq'; simpl; rewrite lookup_insert_ne; congruence.
Qed.

Lemma fwrite_file_step targets q b :
  q ∈ targets → preserves (file_step targets) (fwrite q b).
Proof.
  intros Hq w. split_and!; try done.
  intros q' Hq'. simpl. rewrite lookup_insert_ne; congruence.
Qed.

Lemma mkdir_file_step targets q :
  q ∈ targets → preserves (file_step targets) (Script.mkdir_exist_ok q).
Proof.
  intros Hq w. unfold Script.mkdir_exist_ok, file_step.
  destruct (fs w !! q) as [[]|]; simpl; split_and!; try done.
  intros q' Hq'. simpl. rewrite lookup_insert_ne; congruence.
Qed.

Lemma exists_file_step targets q : preserves (file_step targets) (os_path_exists q).
Proof. intros w. by split_and!. Qed.

Lemma in_env_setup {A} targets (m : M world A) :
  preserves (file_step targets) m →
  preserves (setup_frame targets) (Script.in_env m).
Proof.
  intros Hm p. specialize (Hm (Dashboard.env (Script.session p))).
  unfold Script.in_env, Script.in_session, Dashboard.in_world, setup_frame.
  destruct (m _) as [r w']. destruct Hm as (? & ? & ?). by split_and!.
Qed.

Lemma emit_setup targets e : preserves (setup_frame targets) (Script.emit e).
Proof. intros p. by split_and!. Qed.

Lemma show_setup targets m : preserves (setup_frame targets) (Script.show m).
Proof. intros p. by split_and!. Qed.

Lemma log_download_setup targets u o :
  preserves (setup_frame targets)
    (modify (λ p, Script.Page (Script.session p) (Script.models_downloaded p)
                    (Script.openvoice_initialized p) (Script.elements p)
                    (Script.downloads p ++ [(u, o)])%list)).
Proof. intros p. by split_and!. Qed.

Lemma set_downloaded_setup targets :
  preserves (setup_frame targets)
    (modify (λ p, Script.Page (Script.session p) true
                    (Script.openvoice_initialized p) (Script.elements p)
                    (Script.downloads p))).
Proof. intros p. by split_and!. Qed.

Local Hint Resolve open_wb_file_step fwrite_file_step mkdir_file_step
  exists_file_step in_env_setup emit_setup show_setup log_download_setup
  set_downloaded_setup : frames.

Lemma gdown_setup targets u o :
  o ∈ targets → preserves (setup_frame targets) (Script.gdown u o).
Proof. intros Ho. unfold Script.gdown. frames. Qed.

Lemma download_loop_setup targets dir i total items :
  Forall (λ fu, path_join dir fu.1 ∈ targets) items →
  preserves (setup_frame targets) (Script.download_loop dir i total items).
Proof.
  intros Hitems. revert i.
  induction Hitems as [|[f u] items Hf _ IH]; intros i; simpl; [frames|].
  pose proof (gdown_setup targets u _ Hf). frames.
Qed.

Lemma model_urls_in_model_files :
  Forall (λ fu, path_join "checkpoints" fu.1 ∈ model_files) Script.model_urls.
Proof.
  apply Forall_forall. intros fu Hfu. unfold model_files.
  apply elem_of_cons. right. apply list_elem_of_fmap. by exists fu.
Qed.

(** [download_models] touches nothing but the checkpoints directory and
    the three files it names. *)
Lemma download_models_setup :
  preserves (setup_frame model_files) Script.download_models.
Proof.
  pose proof (download_loop_setup model_files "checkpoints" 0
                (length Script.model_urls) _ model_urls_in_model_files).
  assert ("checkpoints" ∈ model_files) by (apply elem_of_cons; by left).
  unfold Script.download_models. frames.
Qed.
End Downloads.

Section Initialisation.
Context {L : Library} {T : Setup}.
Implicit Types (p : Script.page) (w : world).

Lemma read_file_world q w r w' : read_file q w = (r, w') → w' = w.
Proof. unfold read_file. destruct (fs w !! q) as [[]|]; by intros [= _ <-]. Qed.

Ltac page_simpl :=
  cbn [Script.session Script.models_downloaded Script.openvoice_initialized
       Script.elements Script.downloads Dashboard.env Dashboard.voice_samples
       Dashboard.shown fst snd] in *.

(** Without [checkpoints/checkpoint.pth] the initialisation fails and the
    flag stays as it was. *)
Lemma initialize_needs_checkpoint p :
  fs (Dashboard.env (Script.session p)) !! "checkpoints/checkpoint.pth" = None →
  (Script.initialize_openvoice p).1 = inr false
  ∧ Script.openvoice_initialized (Script.initialize_openvoice p).2
    = Script.openvoice_initialized p.
Proof.
  intros Hck. unfold Script.initialize_openvoice, try_except.
  bind_step; injection E as _ <-; [by split|].
  bind_step; [done|]. unfold Script.emit, modify in E. simplify_eq.
  bind_step; apply script_in_env_inv in E as (w1 & E & ->);
    apply read_file_world in E as ->; page_simpl; [by split|].
  bind_step; injection E as _ <-; [by split|].
  bind_step; apply script_in_env_inv in E as (w1 & E & ->); page_simpl;
    unfold read_file in E; rewrite Hck in E; [|done].
  injection E as _ <-. by split.
Qed.
End Initialisation.

(** From [E : m st = (r, st')], the relation that [m] keeps between [st]
    and [st']. *)
Ltac frame_of E R tac :=
  lazymatch type of E with
  | ?m ?st = (?r, ?st') =>
      let H := fresh "H" in
      let F := fresh "F" in
      assert (preserves R m) as H by tac;
      pose proof (run_preserves R m st r st' H E) as F;
      clear H
  end.

Section ScriptRuns.
Context {L : Library} {T : Setup}.
Implicit Types (p : Script.page) (w : world) (i : Script.inputs).

Lemma in_env_flags {A} (m : M world A) : preserves flags_kept (Script.in_env m).
Proof. apply in_session_flags. Qed.

Lemma show_flags m : preserves flags_kept (Script.show m).
Proof. apply in_session_flags. Qed.

Local Hint Resolve in_session_flags in_env_flags show_flags emit_flags
  getitem_flags delitem_flags : frames.

Lemma convert_to_speech_flags content v lang :
  preserves flags_kept (Script.convert_to_speech content v lang).
Proof.
  unfold Script.convert_to_speech. frames.
  apply with_tmpdir_flags. intros d.
  unfold Script.synthesize, Script.st_audio, Script.st_download_button. frames.
  destruct (decide _); frames.
Qed.

Lemma delete_sample_flags name info :
  preserves flags_kept (Script.delete_sample name info).
Proof. unfold Script.delete_sample, Script.st_rerun. frames. Qed.

Lemma show_samples_flags items clicked :
  preserves flags_kept (Script.show_samples items clicked).
Proof.
  induction items as [|[name info] items IH]; simpl; [frames|].
  pose proof (delete_sample_flags name info).
  unfold Script.st_audio. frames.
  destruct (decide _); frames.
Qed.

Lemma tabs_flags i :
  preserves flags_kept (Script.convert_tab i ≫= λ _, Script.manage_tab i).
Proof.
  pose proof convert_to_speech_flags. pose proof show_samples_flags.
  unfold Script.convert_tab, Script.manage_tab. frames.
Qed.
End ScriptRuns.

Section ScriptTheorems.
Context {L : Library} {T : Setup}.
Implicit Types (p : Script.page) (w : world) (i : Script.inputs).

Local Hint Resolve emit_setup show_setup download_models_setup
  emit_session show_session initialize_session : frames.

Lemma checkpoint_not_downloaded : "checkpoints/checkpoint.pth" ∉ model_files.
Proof. apply (bool_decide_unpack _). by vm_compute. Qed.

(** X11. A run that ends with OpenVoice not initialised has shown neither
    tab: whatever the widgets say, the voice samples are as they were and
    no model has been called. *)
Theorem uninitialised_run_is_inert i p :
  Script.openvoice_initialized (Script.script i p).2 = false →
  Dashboard.voice_samples (Script.session (Script.script i p).2)
    = Dashboard.voice_samples (Script.session p)
  ∧ calls (Dashboard.env (Script.session (Script.script i p).2))
    = calls (Dashboard.env (Script.session p)).
Proof.
  unfold Script.script.
  bind_step; [done|]. injection E as <- <-.
  bind_step; frame_of E (setup_frame model_files) ltac:(frames);
    destruct F as (Hv1 & _ & Hc1 & _); [done|].
  bind_step; [done|]. injection E0 as <- <-.
  bind_step; frame_of E0 session_kept ltac:(frames);
    destruct F as (Hv2 & He2); cbn [snd];
    [by rewrite Hv2, He2|].
  bind_step; [done|]. injection E1 as <- <-.
  destruct (Script.openvoice_initialized s0) eqn:Hinit.
  - pose proof (tabs_flags i s0) as [_ Hf]. rewrite Hf, Hinit. done.
  - intros _. cbn [snd Script.emit modify Script.session]. by rewrite Hv2, He2.
Qed.

(** One run cannot initialise OpenVoice when the checkpoint is missing,
    and does not create it. *)
Lemma script_stays_uninitialised i p :
  Script.openvoice_initialized p = false →
  fs (Dashboard.env (Script.session p)) !! "checkpoints/checkpoint.pth" = None →
  Script.openvoice_initialized (Script.script i p).2 = false
  ∧ fs (Dashboard.env (Script.session (Script.script i p).2))
      !! "checkpoints/checkpoint.pth" = None.
Proof.
  intros Hinit Hck. unfold Script.script.
  bind_step; [done|]. injection E as <- <-.
  bind_step; frame_of E (setup_frame model_files) ltac:(frames);
    destruct F as (_ & Hi1 & _ & _ & Hw1);
    specialize (Hw1 _ checkpoint_not_downloaded);
    rewrite Hinit in Hi1; rewrite Hck in Hw1; [done|].
  bind_step; [done|]. injection E0 as <- <-.
  bind_step;
    (assert (Script.openvoice_initialized s0 = false
             ∧ fs (Dashboard.env (Script.session s0))
                 !! "checkpoints/checkpoint.pth" = None) as [Hi2 Hw2];
     [frame_of E0 session_kept ltac:(frames); destruct F as [_ He];
      rewrite He; split; [|done];
      destruct (Script.models_downloaded s && negb (Script.openvoice_initialized s));
      [|by injection E0 as _ <-];
      destruct (initialize_needs_checkpoint s Hw1) as [Hr Hf];
      unfold mbind, M_bind in E0;
      destruct (Script.initialize_openvoice s) as [[e1|ok] s1];
      cbn [fst snd] in Hr, Hf; [done|]; injection Hr as ->;
      injection E0 as _ <-; cbn [Script.openvoice_initialized]; congruence|]);
    [done|].
  bind_step; [done|]. injection E1 as <- <-.
  rewrite Hi2. by cbn [snd Script.emit modify Script.session].
Qed.

(** X12. Started without [checkpoints/checkpoint.pth], the dashboard never
    gets OpenVoice initialised, whatever is clicked and however many runs
    are made: [download_models] fetches [checkpoint_v1.pth],
    [checkpoint_v2.pth] and [config.json], while [initialize_openvoice]
    loads [checkpoint.pth]. *)
Theorem cannot_initialise_without_checkpoint (ins : list Script.inputs) p :
  Script.openvoice_initialized p = false →
  fs (Dashboard.env (Script.session p)) !! "checkpoints/checkpoint.pth" = None →
  Script.openvoice_initialized (Script.runs ins p) = false.
Proof.
  revert p. induction ins as [|i ins IH]; intros p Hinit Hck; simpl; [done|].
  destruct (script_stays_uninitialised i p Hinit Hck) as [? ?]. by apply IH.
Qed.
End ScriptTheorems.

Lemma uninitialised_run_is_inert_witness :
  Dashboard.voice_samples
    (Script.session
       (@Script.script demo demo_setup
          (Script.Inputs "english" true (Some [Byte.x41]) 0 true
             (Some [Byte.x01]) "alice" true None)
          (Script.fresh empty_world)).2) = []
  ∧ calls (Dashboard.env (Script.session
       (@Script.script demo demo_setup
          (Script.Inputs "english" true (Some [Byte.x41]) 0 true
             (Some [Byte.x01]) "alice" true None)
          (Script.fresh empty_world)).2)) = [].
Proof.
  apply (@uninitialised_run_is_inert demo demo_setup). vm_compute. reflexivity.
Defined.

Lemma cannot_initialise_without_checkpoint_witness :
  Script.openvoice_initialized
    (@Script.runs demo demo_setup
       [Script.Inputs "english" true None 0 false None "" false None;
        Script.Inputs "english" true (Some [Byte.x41]) 0 true
          (Some [Byte.x01]) "alice" true None]
       (Script.fresh empty_world)) = false.
Proof.
  apply (@cannot_initialise_without_checkpoint demo demo_setup); reflexivity.
Defined.

Section DownloadTheorems.
Context {L : Library} {T : Setup}.
Implicit Types (p : Script.page) (w : world) (i : Script.inputs).

Lemma exists_run q p :
  Script.in_env (os_path_exists q) p
  = (inr (bool_decide (is_Some (fs (Dashboard.env (Script.session p)) !! q))),
     Script.Page
       (Dashboard.Session (Dashboard.voice_samples (Script.session p))
          (Dashboard.env (Script.session p)) (Dashboard.shown (Script.session p)))
       (Script.models_downloaded p) (Script.openvoice_initialized p)
       (Script.elements p) (Script.downloads p)).
Proof. done. Qed.

(** X13. When the checkpoints directory and the three model files are
    already there, [download_models] asks for no download, leaves the
    files alone, sets [models_downloaded] and returns [True]. *)
Theorem downloads_skipped_when_present p :
  fs (Dashboard.env (Script.session p)) !! "checkpoints" = Some Dir →
  is_Some (fs (Dashboard.env (Script.session p)) !! "checkpoints/checkpoint_v1.pth") →
  is_Some (fs (Dashboard.env (Script.session p)) !! "checkpoints/checkpoint_v2.pth") →
  is_Some (fs (Dashboard.env (Script.session p)) !! "checkpoints/config.json") →
  (Script.download_models p).1 = inr true
  ∧ Script.models_downloaded (Script.download_models p).2 = true
  ∧ Script.downloads (Script.download_models p).2 = Script.downloads p
  ∧ Dashboard.env (Script.session (Script.download_models p).2)
    = Dashboard.env (Script.session p).
Proof.
  intros Hdir H1 H2 H3.
  assert (∃ els, Script.download_models p
                 = (inr true,
                    Script.Page
                      (Dashboard.Session (Dashboard.voice_samples (Script.session p))
                         (Dashboard.env (Script.session p))
                         (Dashboard.shown (Script.session p)))
                      true (Script.openvoice_initialized p) els
                      (Script.downloads p))) as [els E].
  { eexists.
    unfold Script.download_models, Script.model_urls. cbn [Script.download_loop].
    unfold mbind at 1, M_bind at 1.
    unfold Script.in_env at 1, Script.in_session at 1, Dashboard.in_world at 1,
      Script.mkdir_exist_ok. rewrite Hdir.
    unfold mbind at 1, M_bind at 1. cbn [Script.emit modify].
    unfold mbind at 1, M_bind at 1.
    unfold mbind at 1, M_bind at 1. rewrite exists_run.
    cbn [Script.session Dashboard.env]. rewrite (bool_decide_eq_true_2 _ H1).
    unfold mbind at 1, M_bind at 1. cbn [mret M_ret].
    unfold mbind at 1, M_bind at 1. cbn [Script.emit modify].
    unfold mbind at 1, M_bind at 1. rewrite exists_run.
    cbn [Script.session Dashboard.env]. rewrite (bool_decide_eq_true_2 _ H2).
    unfold mbind at 1, M_bind at 1. cbn [mret M_ret].
    unfold mbind at 1, M_bind at 1. cbn [Script.emit modify].
    unfold mbind at 1, M_bind at 1. rewrite exists_run.
    cbn [Script.session Dashboard.env]. rewrite (bool_decide_eq_true_2 _ H3).
    reflexivity. }
  by rewrite E.
Qed.
End DownloadTheorems.

Lemma downloads_skipped_when_present_witness :
  (@Script.download_models demo demo_setup
     (Script.fresh
        (World (<["checkpoints" := Dir]>
                  (<["checkpoints/checkpoint_v1.pth" := File [Byte.x01]]>
                     (<["checkpoints/checkpoint_v2.pth" := File [Byte.x02]]>
                        {["checkpoints/config.json" := File [Byte.x03]]})))
           0 []))).1 = inr true.
Proof.
  refine (proj1
    (@downloads_skipped_when_present demo demo_setup
       (Script.fresh
          (World (<["checkpoints" := Dir]>
                    (<["checkpoints/checkpoint_v1.pth" := File [Byte.x01]]>
                       (<["checkpoints/checkpoint_v2.pth" := File [Byte.x02]]>
                          {["checkpoints/config.json" := File [Byte.x03]]})))
             0 [])) _ _ _ _)); [reflexivity|by eexists..].
Defined.

Section DownloadOutcome.
Context {L : Library} {T : Setup}.
Implicit Types (p : Script.page) (w : world) (i : nat).

Local Hint Resolve in_session_flags in_env_flags show_flags emit_flags : frames.

Lemma gdown_flags u o : preserves flags_kept (Script.gdown u o).
Proof.
  assert (preserves flags_kept
            (modify (λ p, Script.Page (Script.session p) (Script.models_downloaded p)
                            (Script.openvoice_initialized p) (Script.elements p)
                            (Script.downloads p ++ [(u, o)])%list))) by (by intros p).
  unfold Script.gdown. frames.
Qed.

(** The loop of [download_models] ends by itself or at the first download
    that raises, whose message it shows; it never raises and never sets a
    flag. *)
Lemma download_loop_outcome dir i total items p :
  ∃ b, (Script.download_loop dir i total items p).1 = inr b
       ∧ flags_kept p (Script.download_loop dir i total items p).2
       ∧ (b = false →
          ∃ f e, f ∈ items.*1
                 ∧ last (Dashboard.shown
                           (Script.session (Script.download_loop dir i total items p).2))
                   = Some (Dashboard.Error
                             ("Failed to download " +:+ f +:+ ": " +:+ str_exn e))).
Proof.
  revert i p. induction items as [|[f u] items IH]; intros i p; simpl.
  { exists true. by split_and!. }
  unfold mbind, M_bind, try_except. rewrite exists_run.
  destruct (bool_decide _); cbn [mret M_ret Script.emit modify].
  - match goal with |- context [Script.download_loop _ _ _ _ ?st] => set (p1 := st) end.
    destruct (IH (S i) p1) as (b & Hr & [Hf1 Hf2] & Hb). exists b.
    split_and!; [done|by split|].
    intros Hfalse. destruct (Hb Hfalse) as (f' & e & Hin & Hlast).
    exists f', e. split; [|done]. apply elem_of_cons. by right.
  - match goal with |- context [Script.gdown _ _ ?st] => set (p1 := st) end.
    pose proof (gdown_flags u (path_join dir f) p1) as [Hg1 Hg2].
    destruct (Script.gdown u (path_join dir f) p1) as [[e|[]] p2]; cbn [snd] in Hg1, Hg2.
    + exists false.
      cbn [fst snd Script.show Script.in_session Dashboard.show modify
           Script.session Dashboard.shown Script.models_downloaded
           Script.openvoice_initialized].
      split_and!; [done|by split|].
      intros _. exists f, e. split; [apply elem_of_cons; by left|].
      apply last_snoc.
    + cbn [mret M_ret Script.emit modify].
      match goal with |- context [Script.download_loop _ _ _ _ ?st] => set (p3 := st) end.
      destruct (IH (S i) p3) as (b & Hr & [Hf1 Hf2] & Hb). exists b.
      split_and!; [done|split; [by rewrite Hf1|by rewrite Hf2]|].
      intros Hfalse. destruct (Hb Hfalse) as (f' & e & Hin & Hlast).
      exists f', e. split; [|done]. apply elem_of_cons. by right.
Qed.

(** X14. [download_models] returns [True] only with [models_downloaded]
    set; it returns [False] only after showing which file failed to
    download and why, with [models_downloaded] as it was; and it raises
    only when [checkpoints] cannot be made a directory, again with the
    flag as it was. *)
Theorem download_models_outcome p :
  match (Script.download_models p).1 with
  | inr true => Script.models_downloaded (Script.download_models p).2 = true
  | inr false =>
      Script.models_downloaded (Script.download_models p).2
        = Script.models_downloaded p
      ∧ ∃ f e, f ∈ Script.model_urls.*1
               ∧ last (Dashboard.shown (Script.session (Script.download_models p).2))
                 = Some (Dashboard.Error
                           ("Failed to download " +:+ f +:+ ": " +:+ str_exn e))
  | inl e =>
      e = PyError "FileExistsError" "checkpoints"
      ∧ Script.models_downloaded (Script.download_models p).2
        = Script.models_downloaded p
  end.
Proof.
  unfold Script.download_models.
  bind_step; apply script_in_env_inv in E as (w1 & E & ->).
  { unfold Script.mkdir_exist_ok in E.
    destruct (fs _ !! "checkpoints") as [[]|]; by simplify_eq. }
  bind_step; [done|]. unfold Script.emit, modify in E0. simplify_eq.
  bind_step;
    match goal with
    | H : Script.download_loop ?d ?i ?t ?l ?st = _ |- _ =>
        destruct (download_loop_outcome d i t l st) as (b & Hr & [Hf _] & Hb);
        rewrite H in Hr, Hf, Hb; cbn [fst snd] in Hr, Hf, Hb
    end; [done|].
  injection Hr as ->. cbn [Script.models_downloaded] in Hf.
  destruct b; [done|]. cbn [mret M_ret fst snd]. split; [done|]. by apply Hb.
Qed.
End DownloadOutcome.

Ltac pstep :=
  unfold mbind at 1, M_bind at 1;
  try unfold Script.in_env at 1, Script.in_session at 1, Dashboard.in_world at 1;
  cbn [Script.session Script.models_downloaded Script.openvoice_initialized
       Script.elements Script.downloads Dashboard.env Dashboard.voice_samples
       Dashboard.shown].

Section DashboardConvert.
Context {L : Library} {T : Setup}.
Implicit Types (p : Script.page) (w : world) (i : Script.inputs).

Lemma mkdtemp_run w :
  let d := gettempdir +:+ "/tmp" +:+ tmp_name (entropy w) in
  fs w !! d = None →
  mkdtemp w = (inr d, World (<[d := Dir]> (fs w)) (S (entropy w)) (calls w)).
Proof. intros d Hd. unfold mkdtemp. cbn [draw fs]. fold d. by rewrite Hd. Qed.

Lemma read_file_run q b w : fs w !! q = Some (File b) → read_file q w = (inr b, w).
Proof. intros Hq. unfold read_file. by rewrite Hq. Qed.

(** The "Convert to Speech" handler on the default voice, when every step
    succeeds. *)
Lemma convert_to_speech_default_run content lang p pages t b a :
  let w := Dashboard.env (Script.session p) in
  let d := gettempdir +:+ "/tmp" +:+ tmp_name (entropy w) in
  let base := path_join d "base_audio.wav" in
  PdfReader content = inr pages →
  extract_pages pages [] = inr t →
  strip t ≠ [] →
  fs w !! d = None →
  fs w !! base ≠ Some Dir →
  tts_synth t lang = inr b →
  from_file b = inr a →
  Script.convert_to_speech content "Default Voice" lang p
  = (inr (),
     Script.Page
       (Dashboard.Session (Dashboard.voice_samples (Script.session p))
          (rmtree d (World (<[base := File b]> (<[d := Dir]> (fs w)))
                       (S (entropy w)) (calls w ++ [CallTTS base lang])%list))
          (Dashboard.shown (Script.session p)
           ++ [Dashboard.Success "PDF converted to audio with default voice"])%list)
       (Script.models_downloaded p) (Script.openvoice_initialized p)
       (Script.elements p
        ++ [Script.Audio b;
            Script.DownloadButton "Download Audio" b "converted_audio.wav"])%list
       (Script.downloads p)).
Proof.
  intros w d base Hpdf Htext Hblank Hd Hbase Htts Hdec.
  unfold Script.convert_to_speech, try_except.
  pstep. unfold lift_result at 1. rewrite Hpdf.
  pstep. unfold lift_result at 1. rewrite Htext.
  destruct (strip t) eqn:Hs; [done|]. cbn [text_truthy negb].
  unfold Script.with_TemporaryDirectory.
  pstep. fold w. rewrite mkdtemp_run by done. fold d.
  unfold Script.synthesize. fold base.
  pstep. rewrite (tts_run t base lang b);
    [|by cbn [fs]; rewrite lookup_insert_ne;
        [|unfold base, path_join; intros H%(f_equal String.length);
          rewrite string_length_app in H; simpl in H; lia]|done].
  cbn [fs entropy calls].
  pstep. rewrite decide_False by (by intros H; apply H). cbn [mret M_ret].
  pstep. rewrite (from_file_run base b a);
    [|by cbn [fs]; rewrite lookup_insert_eq|done].
  unfold Script.st_audio, Script.st_download_button.
  pstep. pstep. rewrite (read_file_run base b) by (by cbn [fs]; rewrite lookup_insert_eq).
  pstep. cbn [Script.emit modify].
  pstep. rewrite (read_file_run base b) by (by cbn [fs]; rewrite lookup_insert_eq).
  cbn [Script.emit modify Script.show Script.in_session Dashboard.show].
  cbn [Script.session Script.models_downloaded Script.openvoice_initialized
       Script.elements Script.downloads Dashboard.env Dashboard.voice_samples
       Dashboard.shown].
  by rewrite <- (assoc_L (++)).
Qed.
End DashboardConvert.

Section DashboardConvertTheorems.
Context {L : Library} {T : Setup}.
Implicit Types (p : Script.page) (w : world) (i : Script.inputs).

(** X15. In the dashboard, converting a PDF with the default voice
    selected, when every step succeeds, puts the TTS output itself on the
    page, as the audio player and as the download, before the temporary
    directory is removed; afterwards the directory and the file are gone. *)
Theorem dashboard_plays_the_tts_output i p content pages t b a :
  let w := Dashboard.env (Script.session p) in
  let d := gettempdir +:+ "/tmp" +:+ tmp_name (entropy w) in
  let base := path_join d "base_audio.wav" in
  let out := Script.convert_tab i p in
  Script.pdf_file i = Some content →
  Script.convert_clicked i = true →
  Script.voice_index i = 0 →
  PdfReader content = inr pages →
  extract_pages pages [] = inr t →
  strip t ≠ [] →
  fs w !! d = None →
  fs w !! base ≠ Some Dir →
  tts_synth t (Script.language i) = inr b →
  from_file b = inr a →
  out.1 = inr ()
  ∧ Script.elements out.2
    = (Script.elements p
       ++ [Script.Audio b;
           Script.DownloadButton "Download Audio" b "converted_audio.wav"])%list
  ∧ Dashboard.shown (Script.session out.2)
    = (Dashboard.shown (Script.session p)
       ++ [Dashboard.Success "PDF converted to audio with default voice"])%list
  ∧ fs (Dashboard.env (Script.session out.2)) !! base = None
  ∧ fs (Dashboard.env (Script.session out.2)) !! d = None.
Proof.
  intros w d base out Hpdf Hclick Hidx Hread Htext Hblank Hd Hbase Htts Hdec.
  subst out. unfold Script.convert_tab, mbind, M_bind, get_state.
  rewrite Hpdf, Hclick, Hidx. unfold Script.voice_options. simpl (default _ _).
  rewrite (convert_to_speech_default_run content (Script.language i) p pages t b a)
    by done.
  fold w d base.
  cbn [fst snd Script.session Script.elements Dashboard.env Dashboard.shown].
  split_and!; try done.
  - rewrite rmtree_lookup, decide_False; [done|].
    intros [_ Hin]. unfold base in Hin. by rewrite inside_path_join in Hin.
  - rewrite rmtree_lookup, decide_False; [done|]. by intros [? _].
Qed.

(** X16. In the dashboard a PDF without text gets the plain message "No
    text could be extracted from the PDF." and nothing else happens: no
    temporary directory, no model call. *)
Theorem dashboard_blank_pdf content v lang p pages t :
  PdfReader content = inr pages →
  extract_pages pages [] = inr t →
  strip t = [] →
  Script.convert_to_speech content v lang p
  = (inr (),
     Script.Page
       (Dashboard.Session (Dashboard.voice_samples (Script.session p))
          (Dashboard.env (Script.session p))
          (Dashboard.shown (Script.session p)
           ++ [Dashboard.Error "No text could be extracted from the PDF."])%list)
       (Script.models_downloaded p) (Script.openvoice_initialized p)
       (Script.elements p) (Script.downloads p)).
Proof.
  intros Hpdf Htext Hblank.
  unfold Script.convert_to_speech, try_except, mbind, M_bind, lift_result.
  by rewrite Hpdf, Htext, Hblank.
Qed.
End DashboardConvertTheorems.

Lemma dashboard_plays_the_tts_output_witness :
  Script.elements
    (@Script.convert_tab demo
       (Script.Inputs "english" false (Some [Byte.x41]) 0 true None "" false None)
       (Script.fresh empty_world)).2
  = [Script.Audio [Byte.x61; Byte.x61];
     Script.DownloadButton "Download Audio" [Byte.x61; Byte.x61] "converted_audio.wav"].
Proof.
  refine (proj1 (proj2
    (@dashboard_plays_the_tts_output demo
       (Script.Inputs "english" false (Some [Byte.x41]) 0 true None "" false None)
       (Script.fresh empty_world) [Byte.x41] [[65%N]] [65%N; 10%N]
       [Byte.x61; Byte.x61] [Byte.x61; Byte.x61] _ _ _ _ _ _ _ _ _ _)));
    try reflexivity; try discriminate.
Defined.

Lemma dashboard_blank_pdf_witness :
  Dashboard.shown (Script.session
    (@Script.convert_to_speech demo [Byte.x20] "Default Voice" "english"
       (Script.fresh empty_world)).2)
  = [Dashboard.Error "No text could be extracted from the PDF."].
Proof.
  refine (f_equal (λ o, Dashboard.shown (Script.session o.2))
    (@dashboard_blank_pdf demo [Byte.x20] "Default Voice" "english"
       (Script.fresh empty_world) [[32%N]] [32%N; 10%N] _ _ _));
    reflexivity.
Defined.

Section ManageTab.
Context {L : Library}.
Implicit Types (p : Script.page) (s : Dashboard.session) (w : world).

End ManageTab.

Section DeleteButton.
Context {L : Library}.
Implicit Types (p : Script.page) (s : Dashboard.session) (w : world).



End DeleteButton.

Section ManageTabTheorems.
Context {L : Library}.
Implicit Types (p : Script.page) (s : Dashboard.session) (w : world)
  (i : Script.inputs).






End ManageTabTheorems.


